(** * TVB-NEST co-simulation demo: the TVB -> NEST pipeline driver and the
      serial co-simulation backend

    Two source files are embedded here.

    - [old_demo_files/tvb_to_nest.py], the [__main__] script that wires the
      three stages of the TVB -> NEST direction (module [TvbToNest]).  The
      script is a sequence of calls into the operating system, MPI and the
      stage classes; it is embedded as a program in a small monad that
      records every such call in a trace, threads the store of shared
      objects, and stops at an [exit] or at a raised exception.
    - [backend.py], the serial co-simulation loop (module [Backend]).  The
      four apps are objects whose methods are taken as parameters; their
      attributes that the loop reads and writes are record fields. *)

From stdpp Require Import base list strings gmap pretty.
From Stdlib Require Import ZArith Ascii Floats.

#[local] Open Scope Z_scope.

(* ===================================================================== *)
(** * The pipeline driver, [tvb_to_nest.py]                               *)
(* ===================================================================== *)

Module TvbToNest.

(** ** Values *)

(** A value of [parameter.json]: the driver reads a verbosity and the list
    of region identifiers. *)
Inductive jvalue :=
| JInt (z : Z)
| JList (l : list Z).

(** What [np.loadtxt(..., dtype=int)] returns: a 0-d array for a file with
    one number, a 1-d array for one row (or one column), a 2-d array
    otherwise. *)
Inductive ndarray :=
| Arr0 (x : Z)
| Arr1 (xs : list Z)
| Arr2 (rows : list (list Z)).

Inductive exn :=
| OSError (file : string)
| KeyError (key : string)
| IndexError
| TypeError
| FileNotFoundError (file : string)
| Exception (msg : string).

Inductive stage_class := ProducerDataNest | ConsumerTVBData | TransformationRateSpike.
Inductive communication_class := MPICommunication | ThreadCommunication.

(** Shared objects live in a store and are named by their address. *)
Definition loc := nat.

Inductive dtype := DFloat | DInt.

Inductive object :=
| ONdarray (shape : list Z) (ty : dtype) (fill : option Z)
| OLock.

Abbreviation heap := (list object).

(** The keyword arguments of the three stage constructors. *)
Record kwargs := {
  communication_intern : communication_class;
  buffer_r_w : option (list Z);
  receiver_rank : option Z;
  sender_rank : option Z;
  buffer_write_status : option loc;
  buffer_write_shape : option (list Z);
  buffer_read : option loc;
  status_read : option loc;
  lock_read : option loc }.

Inductive pyarg :=
| AInt (z : Z)
| AStr (s : string)
| AJson (j : jvalue)
| ADict (d : gmap string jvalue).

Record ctor_call := {
  cls : stage_class;
  positional : list pyarg;
  keywords : kwargs }.

(** The [communication_internal] attribute of a stage. *)
Record communication := {
  buffer_write_data : option loc;
  status_write : option loc;
  lock_write : option loc;
  buffer_read_data : option loc;
  comm_status_read : option loc;
  comm_lock_read : option loc }.

Record stage := {
  stage_cls : stage_class;
  communication_internal : communication }.

(** ** Observable calls *)

Inductive event :=
| EPrint (msg : string)
| EPrintShape (shape : list nat)
| EPrintItem (item : ndarray)
| EOpen (file : string)
| ECreateLogger (path name : string) (level : jvalue)
| EGetRank
| EGetSize
| EExists (file : string) (found : bool)
| ELogInfo (msg : string)
| ELogArray (pre : string) (a : ndarray)
| ESleep (seconds : Z)
| ELoadTxt (file : string)
| EConstruct (c : ctor_call)
| ERun (c : stage_class) (arg : option (list string))
| EThreadStart (c : stage_class) (arg : option (list string))
| EThreadJoin (c : stage_class)
| ERemove (file : string).

(** ** The monad of the script *)

Inductive outcome (A : Type) :=
| Ret (a : A)
| Exit (code : Z)
| Raise (e : exn)
| Waiting.
Arguments Ret {A} a.
Arguments Exit {A} code.
Arguments Raise {A} e.
Arguments Waiting {A}.

Record run (A : Type) := Run {
  events : list event;
  final : heap;
  value : outcome A }.
Arguments Run {A} events final value.
Arguments events {A} r.
Arguments final {A} r.
Arguments value {A} r.

Definition M (A : Type) : Type := heap -> run A.

#[export] Instance M_ret : MRet M := fun A a h => Run [] h (Ret a).

#[export] Instance M_bind : MBind M := fun A B f m h =>
  match m h with
  | Run t h1 (Ret a) => match f a h1 with Run t' h2 v => Run (t ++ t') h2 v end
  | Run t h1 (Exit c) => Run t h1 (Exit c)
  | Run t h1 (Raise e) => Run t h1 (Raise e)
  | Run t h1 Waiting => Run t h1 Waiting
  end.

Definition emit (e : event) : M unit := fun h => Run [e] h (Ret tt).
Definition raise {A} (e : exn) : M A := fun h => Run [] h (Raise e).
Definition exit {A} (code : Z) : M A := fun h => Run [] h (Exit code).
Definition out_of_fuel {A} : M A := fun h => Run [] h Waiting.
Definition alloc (o : object) : M loc := fun h => Run [] (h ++ [o]) (Ret (length h)).

(** [try: body / except: pass]: a raised exception (and [SystemExit], which a
    bare [except] catches too) is swallowed and the variable keeps the value
    it had. *)
Definition try_pass {A} (old : A) (body : M A) : M A := fun h =>
  match body h with
  | Run t h1 (Exit _) | Run t h1 (Raise _) => Run t h1 (Ret old)
  | r => r
  end.

(** ** The environment of one run of the script *)

Record env := {
  argv : list string;
  (** the contents of [<path>/parameter.json]; [None] when it cannot be read *)
  parameter_json : option (gmap string jvalue);
  (** whether the [k]-th call of [os.path.exists] finds the unlock marker *)
  unlock_exists : nat -> bool;
  (** what [np.loadtxt] returns; [None] when it raises *)
  spike_generator_txt : option ndarray;
  comm_size : Z;
  comm_rank : Z;
  (** whether the marker is gone when [os.remove] is called *)
  unlock_missing_at_remove : bool }.

(** ** Library functions the script calls *)

(** [str] of an integer. *)
Definition str (z : Z) : string := pretty z.

(** [np.int64] addition wraps around. *)
Definition int64 (z : Z) : Z := (z + 2 ^ 63) mod 2 ^ 64 - 2 ^ 63.

Definition starts_with_sep (s : string) : bool :=
  match s with
  | String c _ => bool_decide (c = "/"%char)
  | EmptyString => false
  end.

Fixpoint ends_with_sep (s : string) : bool :=
  match s with
  | EmptyString => false
  | String c EmptyString => bool_decide (c = "/"%char)
  | String _ s' => ends_with_sep s'
  end.

(** [os.path.join] of two components (posixpath). *)
Definition os_path_join (a b : string) : string :=
  if starts_with_sep b then b
  else if bool_decide (a = "") || ends_with_sep a then a +:+ b
  else a +:+ "/" +:+ b.

(** [a.shape] *)
Definition shape (a : ndarray) : list nat :=
  match a with
  | Arr0 _ => []
  | Arr1 xs => [length xs]
  | Arr2 rows => [length rows; match rows with [] => 0%nat | r :: _ => length r end]
  end.

(** [np.expand_dims(a, 0)], for the arrays of fewer than two dimensions it is
    called on. *)
Definition expand_dims (a : ndarray) : ndarray :=
  match a with
  | Arr0 x => Arr1 [x]
  | Arr1 xs => Arr2 [xs]
  | Arr2 rows => Arr2 rows
  end.

(** [a[0]]: a scalar cannot be indexed, an empty axis has no element 0. *)
Definition getitem0 (a : ndarray) : M ndarray :=
  match a with
  | Arr0 _ => raise IndexError
  | Arr1 [] => raise IndexError
  | Arr1 (x :: _) => mret (Arr0 x)
  | Arr2 [] => raise IndexError
  | Arr2 (r :: _) => mret (Arr1 r)
  end.

(** [len(a)] *)
Definition len (a : ndarray) : M nat :=
  match a with
  | Arr0 _ => raise TypeError
  | Arr1 xs => mret (length xs)
  | Arr2 rows => mret (length rows)
  end.

(** [a[0][0]] used as an integer. *)
Definition scalar (a : ndarray) : M Z :=
  match a with
  | Arr0 x => mret x
  | _ => raise TypeError
  end.

(** [d[k]] on the parameter dictionary. *)
Definition dict_get (d : gmap string jvalue) (k : string) : M jvalue :=
  match d !! k with
  | Some v => mret v
  | None => raise (KeyError k)
  end.

(** [v[i]] on a parameter value. *)
Definition json_index (v : jvalue) (i : nat) : M Z :=
  match v with
  | JInt _ => raise TypeError
  | JList l => match l !! i with Some x => mret x | None => raise IndexError end
  end.

Definition unlock_file (path : string) : string := path +:+ "/nest/spike_generator.txt.unlock".
Definition data_file (path : string) : string := path +:+ "/nest/spike_generator.txt".
Definition retry_message : string := "spike generator ids not found yet, retry in 1 second".

(** ** The script *)

(** [os.path.exists(file)], at the [k]-th check of the marker. *)
Definition os_path_exists (e : env) (file : string) (k : nat) : M bool :=
  emit (EExists file (unlock_exists e k));; mret (unlock_exists e k).

(** [os.remove(file)] *)
Definition os_remove (e : env) (file : string) : M unit :=
  emit (ERemove file);;
  if unlock_missing_at_remove e then raise (FileNotFoundError file) else mret tt.

(** Lines 36-38: [while not os.path.exists(...): logger.info(...); time.sleep(1)].
    [fuel] bounds the number of checks, [k] counts the checks made so far. *)
Fixpoint wait_for_unlock (e : env) (path : string) (fuel k : nat) : M unit :=
  match fuel with
  | O => out_of_fuel
  | S fuel' =>
      found ← os_path_exists e (unlock_file path) k;
      if found : bool then mret tt
      else
        emit (ELogInfo retry_message);;
        emit (ESleep 1);;
        wait_for_unlock e path fuel' (S k)
  end.

Definition id_transformer : nat := 0.

(** Lines 41-46: the table of one spike detector is given a leading axis. *)
Definition normalize (spike_generator : ndarray) : M ndarray :=
  try_pass spike_generator
    (let spike_generator :=
       if bool_decide (length (shape spike_generator) < 2)%nat
       then expand_dims spike_generator
       else spike_generator in
     emit (EPrintShape (shape spike_generator));;
     mret spike_generator).

(** Lines 39-51: read the table, return [id_first_spike_detector] and
    [nb_spike_generator]. *)
Definition read_spike_generator (e : env) (path : string) : M (Z * nat) :=
  emit (ELoadTxt (data_file path));;
  spike_generator ← match spike_generator_txt e with
                    | Some a => mret a
                    | None => raise (OSError (data_file path))
                    end;
  spike_generator ← normalize spike_generator;
  emit (ELogArray "spike_generator : " spike_generator);;
  row ← getitem0 spike_generator;
  emit (EPrintItem row);;
  row ← getitem0 spike_generator;
  first ← getitem0 row;
  id_first_spike_detector ← scalar first;
  row ← getitem0 spike_generator;
  nb_spike_generator ← len row;
  mret (id_first_spike_detector, nb_spike_generator).

(** Modelled from the spec: the constructor of [ThreadCommunication] and of
    [MPICommunication] (nest_elephant_tvb/transformation/communication, not
    part of the sources at hand).  Thread transport preallocates the buffer
    it writes, of the shape it is given, together with a lock; the status
    array and the three objects of the read side are the ones passed by
    reference.  Process transport shares no object. *)
Definition new_communication (k : kwargs) : M communication :=
  match communication_intern k with
  | MPICommunication =>
      mret {| buffer_write_data := None; status_write := None; lock_write := None;
              buffer_read_data := None; comm_status_read := None; comm_lock_read := None |}
  | ThreadCommunication =>
      match buffer_write_shape k with
      | Some sh =>
          b ← alloc (ONdarray sh DFloat None);
          l ← alloc OLock;
          mret {| buffer_write_data := Some b; status_write := buffer_write_status k;
                  lock_write := Some l;
                  buffer_read_data := buffer_read k; comm_status_read := status_read k;
                  comm_lock_read := lock_read k |}
      | None =>
          mret {| buffer_write_data := None; status_write := None; lock_write := None;
                  buffer_read_data := buffer_read k; comm_status_read := status_read k;
                  comm_lock_read := lock_read k |}
      end
  end.

(** A call of a stage class: the call is recorded with its arguments and the
    stage owns the communication object built from them. *)
Definition new_stage (c : stage_class) (args : list pyarg) (k : kwargs) : M stage :=
  emit (EConstruct {| cls := c; positional := args; keywords := k |});;
  comm ← new_communication k;
  mret {| stage_cls := c; communication_internal := comm |}.

(** [stage.run(arg)] in the calling process. *)
Definition run_stage (s : stage) (arg : option (list string)) : M unit :=
  emit (ERun (stage_cls s) arg).

Definition thread_start (s : stage) (arg : option (list string)) : M unit :=
  emit (EThreadStart (stage_cls s) arg).

Definition thread_join (s : stage) : M unit :=
  emit (EThreadJoin (stage_cls s)).

(** Lines 60-65 and 116-121: the [for i in range(nb_spike_generator)] loop
    that appends one file name per spike generator. *)
Definition path_to_files_sends (path : string) (id_first_spike_detector : Z)
    (nb_spike_generator : nat) : list string :=
  foldl (fun acc i =>
           acc ++ [os_path_join (path +:+ "/transformation/spike_generator/")
                     (str (int64 (id_first_spike_detector + Z.of_nat i)) +:+ ".txt")])
        [] (seq 0 nb_spike_generator).

(** The local variables of the script when the transport is selected. *)
Record locals := {
  path : string;
  parameters : gmap string jvalue;
  level_log : jvalue;
  id_proxy : jvalue;
  rank : Z;
  id_first_spike_detector : Z;
  nb_spike_generator : nat }.

(** The settings read before the handshake. *)
Record config := {
  cfg_path : string;
  cfg_parameters : gmap string jvalue;
  cfg_level_log : jvalue;
  cfg_id_proxy : jvalue;
  cfg_rank : Z }.

(** Lines 19-34: the argument, the parameter file, the logger, the rank. *)
Definition configure (e : env) : M config :=
  if bool_decide (length (argv e) ≠ 2%nat) then
    emit (EPrint "missing argument");; exit 1
  else
    let path := default "" (argv e !! 1%nat) in
    emit (EOpen (path +:+ "/parameter.json"));;
    parameters ← match parameter_json e with
                 | Some d => mret d
                 | None => raise (OSError (path +:+ "/parameter.json"))
                 end;
    level_log ← dict_get parameters "level_log";
    id_proxy ← dict_get parameters "id_nest_region";
    emit (ECreateLogger path ("tvb_to_nest_" +:+ str (Z.of_nat id_transformer)) level_log);;
    emit EGetRank;;
    mret {| cfg_path := path; cfg_parameters := parameters; cfg_level_log := level_log;
            cfg_id_proxy := id_proxy; cfg_rank := comm_rank e |}.

(** Lines 19-51. *)
Definition startup (e : env) (fuel : nat) : M locals :=
  c ← configure e;
  wait_for_unlock e (cfg_path c) fuel 0;;
  '(id_first, nb) ← read_spike_generator e (cfg_path c);
  mret {| path := cfg_path c; parameters := cfg_parameters c;
          level_log := cfg_level_log c; id_proxy := cfg_id_proxy c; rank := cfg_rank c;
          id_first_spike_detector := id_first; nb_spike_generator := nb |}.

Definition mpi_kwargs (receiver sender : option Z) : kwargs :=
  {| communication_intern := MPICommunication; buffer_r_w := Some [0; 2];
     receiver_rank := receiver; sender_rank := sender;
     buffer_write_status := None; buffer_write_shape := None;
     buffer_read := None; status_read := None; lock_read := None |}.

Definition thread_kwargs (write_status : option loc) (write_shape : option (list Z))
    (read status lock : option loc) : kwargs :=
  {| communication_intern := ThreadCommunication; buffer_r_w := None;
     receiver_rank := None; sender_rank := None;
     buffer_write_status := write_status; buffer_write_shape := write_shape;
     buffer_read := read; status_read := status; lock_read := lock |}.

Definition receive_file (l : locals) : M (list string) :=
  region ← json_index (id_proxy l) id_transformer;
  mret [path l +:+ "/transformation/receive_from_tvb/" +:+ str region +:+ ".txt"].

(** Lines 54-83: one stage per rank. *)
Definition process_mode (l : locals) : M unit :=
  let first := str (id_first_spike_detector l) in
  if bool_decide (rank l = 0) then
    send_data_to_Nest ← new_stage ProducerDataNest
      [AInt (id_first_spike_detector l); AStr ("tvb_to_nest_sender" +:+ first);
       AStr (path l); AJson (level_log l)]
      (mpi_kwargs None None);
    run_stage send_data_to_Nest
      (Some (path_to_files_sends (path l) (id_first_spike_detector l) (nb_spike_generator l)))
  else if bool_decide (rank l = 1) then
    receive_data_to_TVB ← new_stage ConsumerTVBData
      [AStr ("tvb_to_nest_receiver" +:+ first); AStr (path l); AJson (level_log l)]
      (mpi_kwargs (Some 2) None);
    path_to_files_receive ← receive_file l;
    run_stage receive_data_to_TVB (Some path_to_files_receive)
  else if bool_decide (rank l = 2) then
    transform_rate_to_spike ← new_stage TransformationRateSpike
      [AInt (Z.of_nat id_transformer); ADict (parameters l);
       AInt (Z.of_nat (nb_spike_generator l));
       AStr ("tvb_to_nest_transform" +:+ first); AStr (path l); AJson (level_log l)]
      (mpi_kwargs None (Some 1));
    run_stage transform_rate_to_spike None
  else raise (Exception "too much rank").

(** The three stages of thread mode, as the script holds them. *)
Record wiring := {
  receive_data_to_TVB : stage;
  transform_rate_to_spike : stage;
  send_data_to_Nest : stage }.

(** Lines 89-115: the three stages are built in one process, each reading
    what the previous one writes. *)
Definition thread_stages (l : locals) : M (wiring * list string) :=
  let first := str (id_first_spike_detector l) in
  status ← alloc (ONdarray [1] DFloat (Some (-2)));
  receive ← new_stage ConsumerTVBData
    [AStr ("tvb_to_nest_receiver" +:+ first); AStr (path l); AJson (level_log l)]
    (thread_kwargs (Some status) (Some [2; 2]) None None None);
  path_to_files_receive ← receive_file l;
  status ← alloc (ONdarray [1; 1] DInt (Some (-2)));
  transform ← new_stage TransformationRateSpike
    [AInt (Z.of_nat id_transformer); ADict (parameters l);
     AInt (Z.of_nat (nb_spike_generator l));
     AStr ("tvb_to_nest_transform" +:+ first); AStr (path l); AJson (level_log l)]
    (thread_kwargs (Some status) (Some [1000000 * 3; 1])
       (buffer_write_data (communication_internal receive))
       (status_write (communication_internal receive))
       (lock_write (communication_internal receive)));
  send ← new_stage ProducerDataNest
    [AInt (id_first_spike_detector l); AStr ("tvb_to_nest_sender" +:+ first);
     AStr (path l); AJson (level_log l)]
    (thread_kwargs None None
       (buffer_write_data (communication_internal transform))
       (status_write (communication_internal transform))
       (lock_write (communication_internal transform)));
  mret ({| receive_data_to_TVB := receive; transform_rate_to_spike := transform;
           send_data_to_Nest := send |}, path_to_files_receive).

(** Lines 85-132. *)
Definition thread_mode (l : locals) : M unit :=
  '(w, path_to_files_receive) ← thread_stages l;
  let sends := path_to_files_sends (path l) (id_first_spike_detector l) (nb_spike_generator l) in
  thread_start (receive_data_to_TVB w) (Some path_to_files_receive);;
  thread_start (transform_rate_to_spike w) None;;
  thread_start (send_data_to_Nest w) (Some sends);;
  thread_join (transform_rate_to_spike w);;
  thread_join (receive_data_to_TVB w);;
  thread_join (send_data_to_Nest w).

(** Lines 53-134: the transport is chosen by the number of MPI ranks. *)
Definition pipeline (e : env) (l : locals) : M unit :=
  emit EGetSize;;
  if bool_decide (comm_size e = 3) then process_mode l
  else
    emit EGetSize;;
    if bool_decide (comm_size e = 1) then thread_mode l
    else raise (Exception " BAD number of MPI rank").

(** Lines 135-137. *)
Definition cleanup (e : env) (l : locals) : M unit :=
  if bool_decide (id_transformer = 0%nat) && bool_decide (rank l = 1)
  then os_remove e (unlock_file (path l))
  else mret tt.

Definition main (e : env) (fuel : nat) : M unit :=
  l ← startup e fuel;
  pipeline e l;;
  cleanup e l.

(** ** Reading traces *)

(** The constructor calls of a trace, in order. *)
Definition constructed (tr : list event) : list ctor_call :=
  omap (fun ev => match ev with EConstruct c => Some c | _ => None end) tr.

(** The stages run in the calling process, with their argument. *)
Definition ran (tr : list event) : list (stage_class * option (list string)) :=
  omap (fun ev => match ev with ERun c a => Some (c, a) | _ => None end) tr.

(** The files removed. *)
Definition removed (tr : list event) : list string :=
  omap (fun ev => match ev with ERemove f => Some f | _ => None end) tr.

(** The threads joined, in order. *)
Definition joined (tr : list event) : list stage_class :=
  omap (fun ev => match ev with EThreadJoin c => Some c | _ => None end) tr.

(** The events of the handshake: checks of the marker, sleeps, reads. *)
Definition handshake_event (ev : event) : bool :=
  match ev with
  | EExists _ _ | ESleep _ | ELoadTxt _ => true
  | _ => false
  end.

(** The events of lines 53-137: transport, stages, threads, cleanup. *)
Definition pipeline_event (ev : event) : bool :=
  match ev with
  | EGetSize | EConstruct _ | ERun _ _ | EThreadStart _ _ | EThreadJoin _ | ERemove _ => true
  | _ => false
  end.

(** [n] rounds of the polling loop that did not find the marker. *)
Fixpoint retries (path : string) (n : nat) : list event :=
  match n with
  | O => []
  | S n' => EExists (unlock_file path) false :: ELogInfo retry_message :: ESleep 1
            :: retries path n'
  end.

End TvbToNest.

(* ===================================================================== *)
(** * The serial co-simulation loop, [backend.py]                         *)
(* ===================================================================== *)

Module Backend.

(** ** Numbers *)

(** [round(n / d)] to the nearest integer, ties to the even one. *)
Definition round_half_even (n d : Z) : Z :=
  let q := n / d in
  let r := n mod d in
  if 2 * r <? d then q
  else if d <? 2 * r then q + 1
  else if Z.even q then q else q + 1.

(** [int(np.round(x))]: [None] when [int] raises (infinities, not-a-number). *)
Definition int_round (x : float) : option Z :=
  match Prim2SF x with
  | S754_zero _ => Some 0
  | S754_finite s m e =>
      let magnitude :=
        if 0 <=? e then Z.pos m * 2 ^ e else round_half_even (Z.pos m) (2 ^ (- e)) in
      Some (if s then - magnitude else magnitude)
  | S754_infinity _ => None
  | S754_nan => None
  end.

(** The float an integer is converted to when it is multiplied by a float:
    the nearest float, ties to even, for an integer of any size (the
    infinity beyond the largest float). *)
Definition float_of_int (z : Z) : float :=
  SF2Prim (binary_normalize prec emax z 0 false).

(** Whether [z * dt] raises [OverflowError] for the Python int [z] ('int too
    large to convert to float'): when the nearest float would be the
    infinity, that is from [2^1024 - 2^970] on. *)
Definition too_large (z : Z) : bool := 2 ^ 1024 - 2 ^ 970 <=? Z.abs z.

(** ** The attributes the loop reads and writes *)

Record Integrator := { dt : float }.

(** The step counts are integers of any size, as Python's are. *)
Record CoSimulator := {
  simulation_length : float;
  synchronization_time : float;
  synchronization_n_step : Z;
  integrator : Integrator;
  n_tvb_steps_ran_since_last_synch : Z;
  _tic : float }.

Inductive app := TVB | NEST | TVB_TO_NEST | NEST_TO_TVB.

Section Apps.

(** The data exchanged at each synchronization, and the private state of the
    four apps.  [None] is Python's [None]. *)
Variables update tvb_state nest_state tvb_to_nest_state nest_to_tvb_state : Type.

Record TVBApp := {
  cosimulator : CoSimulator;
  tvb_init_cosim_coupling : option update;
  tvb_private : tvb_state }.

Record NESTApp := {
  nest_synchronization_time : float;
  nest_private : nest_state }.

(** The [run_for_synchronization_time] methods of the four apps: each takes
    its input and changes its own object. *)
Variable tvb_run : option update -> TVBApp -> option update * TVBApp.
Variable nest_run : option update -> NESTApp -> option update * NESTApp.
Variable tvb_to_nest_run :
  option update -> tvb_to_nest_state -> option update * tvb_to_nest_state.
Variable nest_to_tvb_run :
  option update -> nest_to_tvb_state -> option update * nest_to_tvb_state.

(** [time.time()] when the loop starts. *)
Variable now : float.

(** What the apps are asked to do, in order: a call of the
    [run_for_synchronization_time] method of an app, with its argument and
    its result, or the progress message of the cosimulator
    ([_log_print_progress_message], which only prints). *)
Inductive call :=
| Called (a : app) (input output : option update)
| Progress (simulated_steps : Z) (simulation_length : float).

Record world := {
  tvb_app : TVBApp;
  nest_app : NESTApp;
  tvb_to_nest_app : tvb_to_nest_state;
  nest_to_tvb_app : nest_to_tvb_state;
  calls : list call }.

Definition log (c : call) (w : world) : world :=
  {| tvb_app := tvb_app w; nest_app := nest_app w;
     tvb_to_nest_app := tvb_to_nest_app w; nest_to_tvb_app := nest_to_tvb_app w;
     calls := calls w ++ [c] |}.

Definition call_tvb (input : option update) (w : world) : option update * world :=
  let '(output, tvb) := tvb_run input (tvb_app w) in
  (output,
   log (Called TVB input output)
     {| tvb_app := tvb; nest_app := nest_app w;
        tvb_to_nest_app := tvb_to_nest_app w; nest_to_tvb_app := nest_to_tvb_app w;
        calls := calls w |}).

Definition call_nest (input : option update) (w : world) : option update * world :=
  let '(output, nest) := nest_run input (nest_app w) in
  (output,
   log (Called NEST input output)
     {| tvb_app := tvb_app w; nest_app := nest;
        tvb_to_nest_app := tvb_to_nest_app w; nest_to_tvb_app := nest_to_tvb_app w;
        calls := calls w |}).

Definition call_tvb_to_nest (input : option update) (w : world) : option update * world :=
  let '(output, t) := tvb_to_nest_run input (tvb_to_nest_app w) in
  (output,
   log (Called TVB_TO_NEST input output)
     {| tvb_app := tvb_app w; nest_app := nest_app w;
        tvb_to_nest_app := t; nest_to_tvb_app := nest_to_tvb_app w;
        calls := calls w |}).

Definition call_nest_to_tvb (input : option update) (w : world) : option update * world :=
  let '(output, t) := nest_to_tvb_run input (nest_to_tvb_app w) in
  (output,
   log (Called NEST_TO_TVB input output)
     {| tvb_app := tvb_app w; nest_app := nest_app w;
        tvb_to_nest_app := tvb_to_nest_app w; nest_to_tvb_app := t;
        calls := calls w |}).

(** ** [run_for_synchronization_time] (lines 18-53) *)

Definition run_for_synchronization_time
    (tvb_to_trans_cosim_updates nest_to_trans_cosim_updates : option update)
    (w : world) : (option update * option update) * world :=
  let '(trans_to_nest_cosim_updates, w) :=
    match tvb_to_trans_cosim_updates with
    | Some _ => call_tvb_to_nest tvb_to_trans_cosim_updates w
    | None => (None, w)
    end in
  let '(trans_to_tvb_cosim_updates, w) :=
    match nest_to_trans_cosim_updates with
    | Some _ => call_nest_to_tvb nest_to_trans_cosim_updates w
    | None => (None, w)
    end in
  let '(tvb_to_trans_cosim_updates, w) := call_tvb trans_to_tvb_cosim_updates w in
  let '(nest_to_trans_cosim_updates, w) := call_nest trans_to_nest_cosim_updates w in
  ((tvb_to_trans_cosim_updates, nest_to_trans_cosim_updates), w).

(** ** [run_cosimulation] (lines 56-109) *)

(** Assignments to the attributes of [tvb_app.cosimulator] and of [nest_app]. *)
Definition set_cosimulator (f : CoSimulator -> CoSimulator) (w : world) : world :=
  {| tvb_app := {| cosimulator := f (cosimulator (tvb_app w));
                   tvb_init_cosim_coupling := tvb_init_cosim_coupling (tvb_app w);
                   tvb_private := tvb_private (tvb_app w) |};
     nest_app := nest_app w;
     tvb_to_nest_app := tvb_to_nest_app w; nest_to_tvb_app := nest_to_tvb_app w;
     calls := calls w |}.

Definition set_synchronization_n_step (n : Z) (c : CoSimulator) : CoSimulator :=
  {| simulation_length := simulation_length c;
     synchronization_time := synchronization_time c;
     synchronization_n_step := n;
     integrator := integrator c;
     n_tvb_steps_ran_since_last_synch := n_tvb_steps_ran_since_last_synch c;
     _tic := _tic c |}.

Definition set_synchronization_time (t : float) (c : CoSimulator) : CoSimulator :=
  {| simulation_length := simulation_length c;
     synchronization_time := t;
     synchronization_n_step := synchronization_n_step c;
     integrator := integrator c;
     n_tvb_steps_ran_since_last_synch := n_tvb_steps_ran_since_last_synch c;
     _tic := _tic c |}.

Definition set_simulation_length (t : float) (c : CoSimulator) : CoSimulator :=
  {| simulation_length := t;
     synchronization_time := synchronization_time c;
     synchronization_n_step := synchronization_n_step c;
     integrator := integrator c;
     n_tvb_steps_ran_since_last_synch := n_tvb_steps_ran_since_last_synch c;
     _tic := _tic c |}.

Definition set_tic (t : float) (c : CoSimulator) : CoSimulator :=
  {| simulation_length := simulation_length c;
     synchronization_time := synchronization_time c;
     synchronization_n_step := synchronization_n_step c;
     integrator := integrator c;
     n_tvb_steps_ran_since_last_synch := n_tvb_steps_ran_since_last_synch c;
     _tic := t |}.

Definition set_nest_synchronization_time (t : float) (w : world) : world :=
  {| tvb_app := tvb_app w;
     nest_app := {| nest_synchronization_time := t;
                    nest_private := nest_private (nest_app w) |};
     tvb_to_nest_app := tvb_to_nest_app w; nest_to_tvb_app := nest_to_tvb_app w;
     calls := calls w |}.

(** The local variables of the loop when it ends. *)
Record loop_state := {
  simulated_steps : Z;
  tvb_to_trans_cosim_updates : option update;
  nest_to_trans_cosim_updates : option update;
  after : world }.

(** Lines 87-99, [while remaining_steps > 0].  [fuel] bounds the number of
    iterations; [None] when it is spent.  [np.minimum] returns a NumPy
    number, and the product of [dt] with a NumPy number does not raise. *)
Fixpoint loop (fuel : nat) (dt : float) (simulation_length : float)
    (synchronization_n_step : Z) (remaining_steps : Z) (s : loop_state) : option loop_state :=
  if 0 <? remaining_steps then
    match fuel with
    | O => None
    | S fuel' =>
        let w := after s in
        let w := set_cosimulator
                   (set_synchronization_n_step
                      (Z.min remaining_steps synchronization_n_step)) w in
        let time_to_simulate :=
          PrimFloat.mul dt
            (float_of_int (Backend.synchronization_n_step (cosimulator (tvb_app w)))) in
        let w := set_cosimulator (set_synchronization_time time_to_simulate) w in
        let w := set_nest_synchronization_time time_to_simulate w in
        let '((tvb_to_trans, nest_to_trans), w) :=
          run_for_synchronization_time (tvb_to_trans_cosim_updates s)
            (nest_to_trans_cosim_updates s) w in
        let simulated :=
          simulated_steps s + n_tvb_steps_ran_since_last_synch (cosimulator (tvb_app w)) in
        let w := log (Progress simulated simulation_length) w in
        let remaining :=
          remaining_steps - n_tvb_steps_ran_since_last_synch (cosimulator (tvb_app w)) in
        loop fuel' dt simulation_length synchronization_n_step remaining
          {| simulated_steps := simulated; tvb_to_trans_cosim_updates := tvb_to_trans;
             nest_to_trans_cosim_updates := nest_to_trans; after := w |}
    end
  else Some s.

(** How a call of [run_cosimulation] ends: it returns the two last updates
    (the apps are returned as they are in the world), or line 76 raises
    because the quotient is not a finite number ([ZeroDivisionError],
    [OverflowError] or [ValueError]), or the loop is still running when the
    fuel is spent, or line 102 raises [OverflowError] because the steps
    simulated are too many to be converted to a float. *)
Inductive outcome :=
| Returned (tvb_to_trans nest_to_trans : option update) (w : world)
| Raised
| Running
| Overflow.

(** The state in which the loop is entered, with the number of steps to
    simulate: lines 66-86. *)
Definition enter (advance_simulation_for_delayed_monitors_output : bool) (w : world)
    : option (Z * loop_state) :=
  let c := cosimulator (tvb_app w) in
  let simulation_length :=
    if advance_simulation_for_delayed_monitors_output
    then PrimFloat.add (simulation_length c) (synchronization_time c)
    else simulation_length c in
  match int_round (PrimFloat.div simulation_length (dt (integrator c))) with
  | None => None
  | Some remaining_steps =>
      Some (remaining_steps,
            {| simulated_steps := 0;
               tvb_to_trans_cosim_updates := tvb_init_cosim_coupling (tvb_app w);
               nest_to_trans_cosim_updates := None;
               after := set_cosimulator (set_tic now) w |})
  end.

(** The assignments after the loop, lines 101-106, when [simulated_steps] can
    be converted to a float. *)
Definition leave (dt synchronization_time : float) (synchronization_n_step : Z)
    (s : loop_state) : world :=
  let w := after s in
  let w := set_cosimulator
             (set_simulation_length (PrimFloat.mul (float_of_int (simulated_steps s)) dt)) w in
  let w := set_cosimulator (set_synchronization_n_step synchronization_n_step) w in
  let w := set_cosimulator (set_synchronization_time synchronization_time) w in
  set_nest_synchronization_time synchronization_time w.

Definition run_cosimulation (fuel : nat)
    (advance_simulation_for_delayed_monitors_output : bool) (w : world) : outcome :=
  let c := cosimulator (tvb_app w) in
  let simulation_length :=
    if advance_simulation_for_delayed_monitors_output
    then PrimFloat.add (simulation_length c) (synchronization_time c)
    else simulation_length c in
  let synchronization_time := synchronization_time c in
  let synchronization_n_step := synchronization_n_step c in
  let dt := dt (integrator c) in
  match enter advance_simulation_for_delayed_monitors_output w with
  | None => Raised
  | Some (remaining_steps, s) =>
      match loop fuel dt simulation_length synchronization_n_step remaining_steps s with
      | None => Running
      | Some s =>
          if too_large (simulated_steps s) then Overflow
          else
            Returned (tvb_to_trans_cosim_updates s) (nest_to_trans_cosim_updates s)
              (leave dt synchronization_time synchronization_n_step s)
      end
  end.

End Apps.

Arguments cosimulator {_ _} t.
Arguments tvb_init_cosim_coupling {_ _} t.
Arguments tvb_private {_ _} t.
Arguments nest_synchronization_time {_} n.
Arguments nest_private {_} n.
Arguments Called {_} a input output.
Arguments Progress {_} simulated_steps simulation_length.
Arguments tvb_app {_ _ _ _ _} w.
Arguments nest_app {_ _ _ _ _} w.
Arguments tvb_to_nest_app {_ _ _ _ _} w.
Arguments nest_to_tvb_app {_ _ _ _ _} w.
Arguments calls {_ _ _ _ _} w.
Arguments log {_ _ _ _ _} c w.
Arguments call_tvb {_ _ _ _ _} tvb_run input w.
Arguments call_nest {_ _ _ _ _} nest_run input w.
Arguments call_tvb_to_nest {_ _ _ _ _} tvb_to_nest_run input w.
Arguments call_nest_to_tvb {_ _ _ _ _} nest_to_tvb_run input w.
Arguments run_for_synchronization_time {_ _ _ _ _}
  tvb_run nest_run tvb_to_nest_run nest_to_tvb_run
  tvb_to_trans_cosim_updates nest_to_trans_cosim_updates w.
Arguments set_cosimulator {_ _ _ _ _} f w.
Arguments set_nest_synchronization_time {_ _ _ _ _} t w.
Arguments simulated_steps {_ _ _ _ _} l.
Arguments tvb_to_trans_cosim_updates {_ _ _ _ _} l.
Arguments nest_to_trans_cosim_updates {_ _ _ _ _} l.
Arguments after {_ _ _ _ _} l.
Arguments loop {_ _ _ _ _} tvb_run nest_run tvb_to_nest_run nest_to_tvb_run
  fuel dt simulation_length synchronization_n_step remaining_steps s.
Arguments Returned {_ _ _ _ _} tvb_to_trans nest_to_trans w.
Arguments Raised {_ _ _ _ _}.
Arguments Running {_ _ _ _ _}.
Arguments Overflow {_ _ _ _ _}.
Arguments enter {_ _ _ _ _} now advance_simulation_for_delayed_monitors_output w.
Arguments leave {_ _ _ _ _} dt synchronization_time synchronization_n_step s.
Arguments run_cosimulation {_ _ _ _ _} tvb_run nest_run tvb_to_nest_run nest_to_tvb_run
  now fuel advance_simulation_for_delayed_monitors_output w.

End Backend.

(* ===================================================================== *)
(** * Properties of the pipeline driver                                   *)
(* ===================================================================== *)

Module TvbToNestProofs.
Import TvbToNest.

(** ** The monad *)

Ltac sel := cbn [events final value app].
Tactic Notation "sel" "in" hyp(H) := cbn [events final value app] in H.

Ltac run_monad :=
  unfold mbind, M_bind, mret, M_ret, emit, raise, exit, out_of_fuel, alloc, try_pass;
  cbn [events final value app].

Lemma run_eta {A} (r : run A) : r = Run (events r) (final r) (value r).
Proof. destruct r. reflexivity. Qed.

Lemma bind_ret {A B} (m : M A) (f : A -> M B) h a :
  value (m h) = Ret a ->
  (m ≫= f) h = Run (events (m h) ++ events (f a (final (m h))))
                     (final (f a (final (m h)))) (value (f a (final (m h)))).
Proof.
  intros Hv. unfold mbind, M_bind. destruct (m h) as [t h1 v]. sel in Hv. subst v. sel.
  destruct (f a h1). reflexivity.
Qed.

Lemma bind_stop {A B} (m : M A) (f : A -> M B) h :
  (forall a, value (m h) <> Ret a) ->
  events ((m ≫= f) h) = events (m h) /\ final ((m ≫= f) h) = final (m h) /\
  forall b, value ((m ≫= f) h) <> Ret b.
Proof.
  intros Hv. unfold mbind, M_bind. destruct (m h) as [t h1 [a| | |]]; sel in Hv; sel;
    try (split; [reflexivity | split; [reflexivity | discriminate]]).
  exfalso. exact (Hv a eq_refl).
Qed.

(** ** The polling loop *)

(** The loop leaves the store alone, and its trace is a number [n] of failed
    rounds, followed by the successful check unless the budget ran out. *)
Lemma wait_for_unlock_run e path fuel k h :
  exists n : nat,
    (n <= fuel)%nat /\
    (forall i : nat, (i < n)%nat -> unlock_exists e (k + i) = false) /\
    ((unlock_exists e (k + n) = true /\ (n < fuel)%nat /\
      wait_for_unlock e path fuel k h =
        Run (retries path n ++ [EExists (unlock_file path) true]) h (Ret tt))
     \/ (n = fuel /\ wait_for_unlock e path fuel k h = Run (retries path n) h Waiting)).
Proof.
  revert k. induction fuel as [|fuel IH]; intros k.
  - exists 0%nat. split; [lia|]. split; [intros; lia|]. right. split; reflexivity.
  - cbn [wait_for_unlock]. unfold os_path_exists.
    destruct (unlock_exists e k) eqn:Ek.
    + exists 0%nat. split; [lia|]. split; [intros; lia|]. left.
      rewrite Nat.add_0_r. split; [exact Ek|]. split; [lia|].
      run_monad. reflexivity.
    + destruct (IH (S k)) as (n & Hn & Hfalse & Hcase).
      exists (S n). split; [lia|]. split.
      * intros i Hi. destruct i as [|i]; [rewrite Nat.add_0_r; exact Ek|].
        replace (k + S i)%nat with (S k + i)%nat by lia. apply Hfalse. lia.
      * replace (k + S n)%nat with (S k + n)%nat by lia.
        destruct Hcase as [(Ht & Hlt & Hrun) | (Hf & Hrun)].
        -- left. split; [exact Ht|]. split; [lia|].
           run_monad. rewrite Hrun. reflexivity.
        -- right. split; [lia|].
           run_monad. rewrite Hrun. reflexivity.
Qed.

(** ** Lines 19-34 *)

(** Prints and log lines: neither part of the handshake nor of the pipeline. *)
Definition bookkeeping (ev : event) : Prop :=
  handshake_event ev = false /\ pipeline_event ev = false.

Lemma logger_name : "tvb_to_nest_" +:+ str (Z.of_nat id_transformer) = "tvb_to_nest_0".
Proof. vm_compute. reflexivity. Qed.

Ltac bookkeeping_events :=
  repeat first [ apply Forall_nil_2 | apply Forall_cons_2; [split; reflexivity|] ].

Lemma configure_missing_argument e h :
  length (argv e) <> 2%nat -> configure e h = Run [EPrint "missing argument"] h (Exit 1).
Proof.
  intros Hlen. unfold configure. rewrite bool_decide_eq_true_2 by exact Hlen. reflexivity.
Qed.

Lemma configure_ok e h d lv ip :
  length (argv e) = 2%nat -> parameter_json e = Some d ->
  d !! "level_log" = Some lv -> d !! "id_nest_region" = Some ip ->
  configure e h =
    Run [EOpen (default "" (argv e !! 1%nat) +:+ "/parameter.json");
         ECreateLogger (default "" (argv e !! 1%nat)) "tvb_to_nest_0" lv; EGetRank] h
        (Ret {| cfg_path := default "" (argv e !! 1%nat); cfg_parameters := d;
                cfg_level_log := lv; cfg_id_proxy := ip; cfg_rank := comm_rank e |}).
Proof.
  intros Hlen Hd Hlv Hip. unfold configure, dict_get.
  rewrite bool_decide_eq_false_2 by (intros Hne; exact (Hne Hlen)).
  rewrite Hd. run_monad. rewrite Hlv. run_monad. rewrite Hip. run_monad.
  rewrite logger_name. reflexivity.
Qed.

Lemma configure_run e h :
  final (configure e h) = h /\ Forall bookkeeping (events (configure e h)) /\
  value (configure e h) <> Waiting.
Proof.
  unfold configure, dict_get. case_bool_decide as Hlen.
  - run_monad. split; [reflexivity|]. split; [bookkeeping_events | discriminate].
  - destruct (parameter_json e) as [d|]; run_monad;
      [destruct (d !! "level_log") as [lv|]; run_monad;
       [destruct (d !! "id_nest_region") as [ip|]; run_monad|]|];
      (split; [reflexivity|]; split; [bookkeeping_events | discriminate]).
Qed.

Lemma configure_ret e h c :
  value (configure e h) = Ret c ->
  length (argv e) = 2%nat /\ parameter_json e = Some (cfg_parameters c) /\
  cfg_parameters c !! "level_log" = Some (cfg_level_log c) /\
  cfg_parameters c !! "id_nest_region" = Some (cfg_id_proxy c) /\
  cfg_path c = default "" (argv e !! 1%nat) /\ cfg_rank c = comm_rank e.
Proof.
  unfold configure, dict_get. case_bool_decide as Hlen; [discriminate|].
  destruct (parameter_json e) as [d|]; run_monad; [|discriminate].
  destruct (d !! "level_log") as [lv|] eqn:Hlv; run_monad; [|discriminate].
  destruct (d !! "id_nest_region") as [ip|] eqn:Hip; run_monad; [|discriminate].
  intros [= <-].
  cbn [cfg_path cfg_parameters cfg_level_log cfg_id_proxy cfg_rank].
  repeat split; assumption.
Qed.

(** ** Lines 39-51 *)

Ltac run_table :=
  unfold read_spike_generator, normalize, getitem0, len, scalar;
  cbn [shape expand_dims length bool_decide decide_rel Nat.lt_dec Nat.le_dec];
  run_monad.

Lemma read_spike_generator_run e path h :
  exists tr, events (read_spike_generator e path h) = ELoadTxt (data_file path) :: tr /\
             Forall bookkeeping tr /\ final (read_spike_generator e path h) = h /\
             value (read_spike_generator e path h) <> Waiting.
Proof.
  unfold read_spike_generator.
  destruct (spike_generator_txt e) as [[x|[|x xs]|[|[|x r] rows]]|];
    vm_compute; eexists; (split; [reflexivity|]); (split; [bookkeeping_events|]);
    (split; [reflexivity | discriminate]).
Qed.

Lemma read_one_row e path h x xs :
  spike_generator_txt e = Some (Arr1 (x :: xs)) ->
  read_spike_generator e path h =
    Run [ELoadTxt (data_file path); EPrintShape [1%nat; S (length xs)];
         ELogArray "spike_generator : " (Arr2 [x :: xs]); EPrintItem (Arr1 (x :: xs))]
        h (Ret (x, S (length xs))).
Proof. intros Ht. unfold read_spike_generator. rewrite Ht. reflexivity. Qed.

Lemma read_rows e path h x xs rows :
  spike_generator_txt e = Some (Arr2 ((x :: xs) :: rows)) ->
  read_spike_generator e path h =
    Run [ELoadTxt (data_file path); EPrintShape [S (length rows); S (length xs)];
         ELogArray "spike_generator : " (Arr2 ((x :: xs) :: rows));
         EPrintItem (Arr1 (x :: xs))]
        h (Ret (x, S (length xs))).
Proof. intros Ht. unfold read_spike_generator. rewrite Ht. reflexivity. Qed.

(** ** Lines 19-51 *)

Lemma bind_value {A B} (m : M A) (f : A -> M B) h :
  (m ≫= f) h =
  match value (m h) with
  | Ret a => Run (events (m h) ++ events (f a (final (m h))))
                 (final (f a (final (m h)))) (value (f a (final (m h))))
  | Exit c => Run (events (m h)) (final (m h)) (Exit c)
  | Raise e => Run (events (m h)) (final (m h)) (Raise e)
  | Waiting => Run (events (m h)) (final (m h)) Waiting
  end.
Proof.
  unfold mbind, M_bind. destruct (m h) as [t h1 [a| | |]]; sel; try reflexivity.
  destruct (f a h1). reflexivity.
Qed.

(** What [startup] returns from what reading the table returns. *)
Definition locals_of (c : config) (r : outcome (Z * nat)) : outcome locals :=
  match r with
  | Ret (id_first, nb) =>
      Ret {| path := cfg_path c; parameters := cfg_parameters c;
             level_log := cfg_level_log c; id_proxy := cfg_id_proxy c; rank := cfg_rank c;
             id_first_spike_detector := id_first; nb_spike_generator := nb |}
  | Exit code => Exit code
  | Raise e => Raise e
  | Waiting => Waiting
  end.

(** Lines 36-51, once the settings are known. *)
Definition handshake (e : env) (fuel : nat) (c : config) : M locals :=
  wait_for_unlock e (cfg_path c) fuel 0;;
  '(id_first, nb) ← read_spike_generator e (cfg_path c);
  mret {| path := cfg_path c; parameters := cfg_parameters c;
          level_log := cfg_level_log c; id_proxy := cfg_id_proxy c; rank := cfg_rank c;
          id_first_spike_detector := id_first; nb_spike_generator := nb |}.

Lemma startup_handshake e fuel : startup e fuel = configure e ≫= handshake e fuel.
Proof. reflexivity. Qed.

Lemma handshake_run e fuel c h :
  exists n : nat,
    (forall i : nat, (i < n)%nat -> unlock_exists e i = false) /\
    ((n = fuel /\ handshake e fuel c h = Run (retries (cfg_path c) n) h Waiting)
     \/ (unlock_exists e n = true /\ (n < fuel)%nat /\
         exists tr,
           Forall bookkeeping tr /\
           events (read_spike_generator e (cfg_path c) h)
             = ELoadTxt (data_file (cfg_path c)) :: tr /\
           handshake e fuel c h =
             Run (retries (cfg_path c) n
                    ++ EExists (unlock_file (cfg_path c)) true
                    :: ELoadTxt (data_file (cfg_path c)) :: tr)
                 h (locals_of c (value (read_spike_generator e (cfg_path c) h))))).
Proof.
  destruct (wait_for_unlock_run e (cfg_path c) fuel 0 h) as (n & Hn & Hfalse & Hcase).
  exists n. split; [exact Hfalse|].
  unfold handshake. rewrite bind_value.
  destruct Hcase as [(Ht & Hlt & Hrun) | (Hf & Hrun)]; rewrite Hrun; sel.
  - right. split; [exact Ht|]. split; [exact Hlt|].
    destruct (read_spike_generator_run e (cfg_path c) h) as (tr & Htr & Hbtr & Hrf & _).
    exists tr. split; [exact Hbtr|]. split; [exact Htr|].
    rewrite bind_value, Hrf, Htr.
    destruct (value (read_spike_generator e (cfg_path c) h)) as [[a b]| | |];
      run_monad; rewrite <- ?app_assoc; cbn [app locals_of]; rewrite ?app_nil_r; reflexivity.
  - left. split; [exact Hf | reflexivity].
Qed.

(** [startup] either stops while configuring, or polls: [n] failed rounds,
    then the budget is spent or the marker is found and the table is read. *)
Lemma startup_run e fuel h :
  (Forall bookkeeping (events (startup e fuel h)) /\
   (forall c, value (configure e h) <> Ret c) /\
   startup e fuel h = Run (events (configure e h)) h (value (startup e fuel h)) /\
   forall l, value (startup e fuel h) <> Ret l)
  \/ exists c (n : nat),
       value (configure e h) = Ret c /\
       (forall i : nat, (i < n)%nat -> unlock_exists e i = false) /\
       ((n = fuel /\
         startup e fuel h = Run (events (configure e h) ++ retries (cfg_path c) n) h Waiting)
        \/ (unlock_exists e n = true /\ (n < fuel)%nat /\
            exists tr,
              Forall bookkeeping tr /\
              events (read_spike_generator e (cfg_path c) h)
                = ELoadTxt (data_file (cfg_path c)) :: tr /\
              startup e fuel h =
                Run (events (configure e h) ++ retries (cfg_path c) n
                       ++ EExists (unlock_file (cfg_path c)) true
                       :: ELoadTxt (data_file (cfg_path c)) :: tr)
                    h (locals_of c (value (read_spike_generator e (cfg_path c) h))))).
Proof.
  destruct (configure_run e h) as (Hfin & Hbk & Hnw).
  rewrite startup_handshake, bind_value, Hfin.
  destruct (value (configure e h)) as [c| code | ex |] eqn:Hc.
  2-4: left; sel; (split; [exact Hbk|]); (split; [discriminate|]);
       (split; [reflexivity | discriminate]).
  right. exists c.
  destruct (handshake_run e fuel c h) as (n & Hfalse & Hcase).
  exists n. split; [reflexivity|]. split; [exact Hfalse|].
  destruct Hcase as [(Hf & Hrun) | (Ht & Hlt & tr & Hbtr & Htr & Hrun)]; rewrite Hrun; sel.
  - left. split; [exact Hf | reflexivity].
  - right. split; [exact Ht|]. split; [exact Hlt|].
    exists tr. split; [exact Hbtr|]. split; [exact Htr | reflexivity].
Qed.

Lemma retries_pipeline_free p n : Forall (fun ev => pipeline_event ev = false) (retries p n).
Proof. induction n as [|n IH]; cbn [retries]; repeat constructor. exact IH. Qed.


(** A successful [startup] has read the settings and the table, did not
    touch the store, and recorded no call of the pipeline. *)
Lemma startup_ret e fuel h l :
  value (startup e fuel h) = Ret l ->
  final (startup e fuel h) = h /\
  length (argv e) = 2%nat /\ path l = default "" (argv e !! 1%nat) /\
  rank l = comm_rank e /\
  parameter_json e = Some (parameters l) /\
  parameters l !! "id_nest_region" = Some (id_proxy l) /\
  value (read_spike_generator e (path l) h)
    = Ret (id_first_spike_detector l, nb_spike_generator l).
Proof.
  intros Hv.
  destruct (startup_run e fuel h) as [(_ & _ & _ & Hno) | (c & n & Hc & _ & Hcase)];
    [exfalso; exact (Hno l Hv)|].
  destruct (configure_ret e h c Hc) as (Hlen & Hpj & _ & Hip & Hpath & Hrank).
  destruct Hcase as [(_ & Hrun) | (_ & _ & tr & Hbtr & _ & Hrun)];
    rewrite Hrun in Hv |- *; sel in Hv; sel; [discriminate|].
  destruct (value (read_spike_generator e (cfg_path c) h)) as [[a b]| | |] eqn:Hr;
    cbn [locals_of] in Hv; try discriminate.
  injection Hv as <-.
  cbn [path parameters level_log id_proxy rank id_first_spike_detector nb_spike_generator].
  repeat split; assumption.
Qed.

(** ** Lines 53-137 *)

(** The rest of the script once [startup] has returned. *)
Definition after_startup (e : env) (l : locals) : M unit :=
  pipeline e l;; cleanup e l.

Lemma main_after_startup e fuel h l :
  value (startup e fuel h) = Ret l ->
  main e fuel h =
    Run (events (startup e fuel h) ++ events (after_startup e l h))
        (final (after_startup e l h)) (value (after_startup e l h)).
Proof.
  intros Hv. unfold main. rewrite (bind_ret _ _ _ l Hv).
  destruct (startup_ret e fuel h l Hv) as (-> & _). reflexivity.
Qed.

Lemma main_stopped e fuel h :
  (forall l, value (startup e fuel h) <> Ret l) ->
  events (main e fuel h) = events (startup e fuel h) /\
  forall u, value (main e fuel h) <> Ret u.
Proof.
  intros Hv. unfold main.
  destruct (bind_stop (startup e fuel) (fun l => pipeline e l;; cleanup e l) h Hv)
    as (He & _ & Hn).
  split; assumption.
Qed.

(** Case analysis on every test the script makes after [startup], then
    symbolic execution of the branch. *)
Ltac open_script :=
  unfold after_startup, pipeline, cleanup, os_remove, process_mode, thread_mode,
    thread_stages, receive_file, json_index, id_transformer;
  rewrite ?(bool_decide_eq_true_2 (0%nat = 0%nat) eq_refl).

Ltac split_tests e l :=
  repeat match goal with
         | |- context [bool_decide ?P] => destruct (bool_decide P) eqn:?
         end;
  destruct (id_proxy l) as [?|[|? ?]];
  destruct (unlock_missing_at_remove e).

Ltac run_script :=
  unfold new_stage, new_communication, run_stage, thread_start, thread_join,
    mpi_kwargs, thread_kwargs;
  unfold mbind, M_bind, mret, M_ret, emit, raise, exit, out_of_fuel, alloc;
  cbn -[str String.append path_to_files_sends Z.of_nat Z.mul].

Ltac read_tests :=
  repeat match goal with
         | H : bool_decide _ = true |- _ => apply bool_decide_eq_true_1 in H
         | H : bool_decide _ = false |- _ => apply bool_decide_eq_false_1 in H
         end.

(** Nothing of the handshake happens after [startup]. *)
Lemma after_startup_events e l h :
  Forall (fun ev => pipeline_event ev = true) (events (after_startup e l h)).
Proof. open_script. split_tests e l; run_script; repeat constructor. Qed.

Lemma omap_none {A B} (f : A -> option B) (l : list A) :
  Forall (fun a => f a = None) l -> omap f l = [].
Proof.
  induction 1 as [|a l Ha _ IH]; [reflexivity|].
  change (a :: l) with ([a] ++ l). rewrite omap_app, IH, app_nil_r.
  cbn. rewrite Ha. reflexivity.
Qed.

(** [startup] constructs, runs and removes nothing. *)
Lemma startup_no_pipeline_event e fuel h :
  Forall (fun ev => pipeline_event ev = false) (events (startup e fuel h)).
Proof.
  destruct (configure_run e h) as (_ & Hbk & _).
  assert (Hc : Forall (fun ev => pipeline_event ev = false) (events (configure e h))).
  { eapply Forall_impl; [exact Hbk | intros ? [_ ?]; assumption]. }
  destruct (startup_run e fuel h) as [(Hb & _) | (c & n & _ & _ & Hcase)].
  - eapply Forall_impl; [exact Hb | intros ? [_ ?]; assumption].
  - destruct Hcase as [(_ & ->) | (_ & _ & tr & Hbtr & _ & ->)]; sel.
    + rewrite Forall_app. split; [exact Hc | apply retries_pipeline_free].
    + rewrite !Forall_app. split; [exact Hc|]. split; [apply retries_pipeline_free|].
      repeat constructor. eapply Forall_impl; [exact Hbtr | intros ? [_ ?]; assumption].
Qed.

Lemma startup_constructed e fuel h : constructed (events (startup e fuel h)) = [].
Proof.
  apply omap_none. eapply Forall_impl; [apply startup_no_pipeline_event|].
  intros [] Hp; cbn [pipeline_event] in Hp; congruence.
Qed.

Lemma startup_ran e fuel h : ran (events (startup e fuel h)) = [].
Proof.
  apply omap_none. eapply Forall_impl; [apply startup_no_pipeline_event|].
  intros [] Hp; cbn [pipeline_event] in Hp; congruence.
Qed.

Lemma startup_removed e fuel h : removed (events (startup e fuel h)) = [].
Proof.
  apply omap_none. eapply Forall_impl; [apply startup_no_pipeline_event|].
  intros [] Hp; cbn [pipeline_event] in Hp; congruence.
Qed.

(** ** The command line *)

(** A run started without the run directory. *)
Definition env_no_argument : env :=
  {| argv := ["tvb_to_nest.py"]; parameter_json := None;
     unlock_exists := fun _ => false; spike_generator_txt := None;
     comm_size := 3; comm_rank := 0; unlock_missing_at_remove := false |}.

(** C7: when the command does not get exactly one argument, the whole run is
    the message "missing argument" followed by exit status 1: no parameter
    file is opened, the marker is not checked, no table is read, no stage
    (hence no transport) is constructed, and the store is untouched. *)
Theorem missing_argument_exits e fuel h :
  length (argv e) <> 2%nat ->
  main e fuel h = Run [EPrint "missing argument"] h (Exit 1).
Proof.
  intros Hlen. unfold main. rewrite bind_value, startup_handshake, bind_value.
  rewrite (configure_missing_argument e h Hlen). reflexivity.
Qed.

Lemma missing_argument_exits_witness :
  main env_no_argument 3 [] = Run [EPrint "missing argument"] [] (Exit 1).
Proof. apply missing_argument_exits. cbn. lia. Defined.

(** ** The handshake *)

Lemma pipeline_not_handshake ev : pipeline_event ev = true -> handshake_event ev = false.
Proof. destruct ev; cbn; congruence. Qed.

Lemma bookkeeping_not_handshake tr :
  Forall bookkeeping tr -> Forall (fun ev => handshake_event ev = false) tr.
Proof. intros H. eapply Forall_impl; [exact H | intros ? [? _]; assumption]. Qed.

(** The trace of [main] is the trace of [startup] followed by events of the
    pipeline only. *)
Lemma main_events e fuel h :
  exists tail, events (main e fuel h) = events (startup e fuel h) ++ tail /\
               Forall (fun ev => pipeline_event ev = true) tail /\
               ((forall l, value (startup e fuel h) <> Ret l) -> tail = []).
Proof.
  destruct (value (startup e fuel h)) as [l| | |] eqn:Hv.
  - exists (events (after_startup e l h)). rewrite (main_after_startup e fuel h l Hv).
    split; [reflexivity|]. split; [apply after_startup_events|].
    intros Hno. exfalso. exact (Hno l eq_refl).
  - exists []. rewrite app_nil_r. split; [|split; [constructor | reflexivity]].
    apply main_stopped. rewrite Hv. discriminate.
  - exists []. rewrite app_nil_r. split; [|split; [constructor | reflexivity]].
    apply main_stopped. rewrite Hv. discriminate.
  - exists []. rewrite app_nil_r. split; [|split; [constructor | reflexivity]].
    apply main_stopped. rewrite Hv. discriminate.
Qed.

(** A run in which the marker shows up at the third check. *)
Definition env_late_marker : env :=
  {| argv := ["tvb_to_nest.py"; "/run"];
     parameter_json := Some {[ "level_log" := JInt 1; "id_nest_region" := JList [0] ]};
     unlock_exists := fun k => bool_decide (2 <= k)%nat;
     spike_generator_txt := Some (Arr2 [[5; 2]; [7; 3]]);
     comm_size := 3; comm_rank := 0; unlock_missing_at_remove := false |}.

(** C4: the data file is read only right after a check that found the unlock
    marker.  Either the run never reaches the handshake, or its trace is a
    prefix without handshake events, then [n] rounds "marker absent, log,
    sleep 1" (one per check that did not find the marker), then nothing
    more (still waiting) or the successful check immediately followed by the
    read.  When the settings are readable and the marker first exists at check
    [n] (within the budget of checks), the run does reach the read after
    exactly [n] one-second sleeps: none when the marker is there at the first
    check. *)
Theorem read_follows_unlock e fuel h :
  (Forall (fun ev => handshake_event ev = false) (events (main e fuel h))
   \/ exists pre (n : nat) rest,
        events (main e fuel h) = pre ++ retries (default "" (argv e !! 1%nat)) n ++ rest /\
        Forall (fun ev => handshake_event ev = false) pre /\
        (forall i : nat, (i < n)%nat -> unlock_exists e i = false) /\
        (rest = [] \/
         (unlock_exists e n = true /\
          exists rest',
            rest = EExists (unlock_file (default "" (argv e !! 1%nat))) true
                   :: ELoadTxt (data_file (default "" (argv e !! 1%nat))) :: rest' /\
            Forall (fun ev => handshake_event ev = false) rest')))
  /\ (forall d lv ip (n : nat),
        length (argv e) = 2%nat -> parameter_json e = Some d ->
        d !! "level_log" = Some lv -> d !! "id_nest_region" = Some ip ->
        (forall i : nat, (i < n)%nat -> unlock_exists e i = false) ->
        unlock_exists e n = true -> (n < fuel)%nat ->
        exists pre rest,
          events (main e fuel h) =
            pre ++ retries (default "" (argv e !! 1%nat)) n
                ++ EExists (unlock_file (default "" (argv e !! 1%nat))) true
                :: ELoadTxt (data_file (default "" (argv e !! 1%nat))) :: rest /\
          Forall (fun ev => handshake_event ev = false) pre /\
          Forall (fun ev => handshake_event ev = false) rest).
Proof.
  destruct (main_events e fuel h) as (tail & Hmain & Htail & Hstop).
  assert (Htail' : Forall (fun ev => handshake_event ev = false) tail).
  { eapply Forall_impl; [exact Htail | apply pipeline_not_handshake]. }
  destruct (configure_run e h) as (_ & Hbk & _).
  apply bookkeeping_not_handshake in Hbk.
  split.
  - destruct (startup_run e fuel h) as [(Hb & _) | (c & n & Hc & Hfalse & Hcase)].
    + left. rewrite Hmain. rewrite Forall_app. split; [|exact Htail'].
      apply bookkeeping_not_handshake, Hb.
    + right. destruct (configure_ret e h c Hc) as (_ & _ & _ & _ & Hpath & _).
      rewrite <- Hpath.
      destruct Hcase as [(_ & Hrun) | (Ht & _ & tr & Hbtr & _ & Hrun)].
      * exists (events (configure e h)), n, tail.
        rewrite Hmain, Hrun. sel. rewrite <- app_assoc.
        split; [reflexivity|]. split; [exact Hbk|]. split; [exact Hfalse|].
        left. apply Hstop. rewrite Hrun. sel. discriminate.
      * exists (events (configure e h)), n,
          (EExists (unlock_file (cfg_path c)) true
             :: ELoadTxt (data_file (cfg_path c)) :: (tr ++ tail)).
        rewrite Hmain, Hrun. sel. rewrite <- !app_assoc. sel.
        split; [reflexivity|]. split; [exact Hbk|]. split; [exact Hfalse|].
        right. split; [exact Ht|]. exists (tr ++ tail). split; [reflexivity|].
        rewrite Forall_app. split; [apply bookkeeping_not_handshake, Hbtr | exact Htail'].
  - intros d lv ip n Hlen Hd Hlv Hip Hfalse Ht Hlt.
    destruct (startup_run e fuel h) as [(_ & Hno & _) | (c & n' & Hc & Hfalse' & Hcase)].
    + exfalso. rewrite (configure_ok e h d lv ip Hlen Hd Hlv Hip) in Hno.
      eapply Hno. reflexivity.
    + destruct (configure_ret e h c Hc) as (_ & _ & _ & _ & Hpath & _).
      rewrite <- Hpath.
      assert (Hn : n' = n).
      { destruct Hcase as [(Hf & _) | (Ht' & _ & _)].
        - subst n'. rewrite (Hfalse' n Hlt) in Ht. discriminate.
        - destruct (Nat.lt_trichotomy n' n) as [Hl | [He | Hg]]; [|exact He|].
          + rewrite (Hfalse n' Hl) in Ht'. discriminate.
          + rewrite (Hfalse' n Hg) in Ht. discriminate. }
      subst n'.
      destruct Hcase as [(Hf & _) | (_ & _ & tr & Hbtr & _ & Hrun)]; [lia|].
      exists (events (configure e h)), (tr ++ tail).
      rewrite Hmain, Hrun. sel. rewrite <- !app_assoc. sel.
      split; [reflexivity|]. split; [exact Hbk|].
      rewrite Forall_app. split; [apply bookkeeping_not_handshake, Hbtr | exact Htail'].
Qed.

Lemma read_follows_unlock_witness :
  exists pre rest,
    events (main env_late_marker 5 []) =
      pre ++ retries "/run" 2
          ++ EExists (unlock_file "/run") true :: ELoadTxt (data_file "/run") :: rest /\
    Forall (fun ev => handshake_event ev = false) pre /\
    Forall (fun ev => handshake_event ev = false) rest.
Proof.
  apply (proj2 (read_follows_unlock env_late_marker 5 [])
           {[ "level_log" := JInt 1; "id_nest_region" := JList [0] ]} (JInt 1) (JList [0]) 2%nat).
  - reflexivity.
  - reflexivity.
  - vm_compute. reflexivity.
  - vm_compute. reflexivity.
  - intros i Hi. cbn [unlock_exists env_late_marker]. apply bool_decide_eq_false_2. lia.
  - reflexivity.
  - lia.
Defined.

(** When the settings are read and the marker first shows up at check [n],
    within the budget, [startup] returns what reading the table returns. *)
Lemma startup_found e fuel h c (n : nat) :
  value (configure e h) = Ret c ->
  (forall i : nat, (i < n)%nat -> unlock_exists e i = false) ->
  unlock_exists e n = true -> (n < fuel)%nat ->
  value (startup e fuel h) = locals_of c (value (read_spike_generator e (cfg_path c) h)).
Proof.
  intros Hc Hfalse Ht Hlt.
  destruct (startup_run e fuel h) as [(_ & Hno & _) | (c' & n' & Hc' & Hfalse' & Hcase)].
  - exfalso. exact (Hno c Hc).
  - rewrite Hc in Hc'. injection Hc' as <-.
    destruct Hcase as [(Hf & _) | (Ht' & _ & tr & _ & _ & Hrun)].
    + subst n'. rewrite (Hfalse' n Hlt) in Ht. discriminate.
    + rewrite Hrun. reflexivity.
Qed.

(** ** The table of spike generators *)

(** A run whose table has a single row, so that it loads as a 1-d array. *)
Definition env_one_row : env :=
  {| argv := ["tvb_to_nest.py"; "/run"];
     parameter_json := Some {[ "level_log" := JInt 1; "id_nest_region" := JList [0] ]};
     unlock_exists := fun _ => true;
     spike_generator_txt := Some (Arr1 [4; 5; 6]);
     comm_size := 3; comm_rank := 0; unlock_missing_at_remove := false |}.

Definition env_one_row_2d : env :=
  {| argv := ["tvb_to_nest.py"; "/run"];
     parameter_json := Some {[ "level_log" := JInt 1; "id_nest_region" := JList [0] ]};
     unlock_exists := fun _ => true;
     spike_generator_txt := Some (Arr2 [[4; 5; 6]]);
     comm_size := 3; comm_rank := 0; unlock_missing_at_remove := false |}.

(** C6: a table that loads as a 1-d array [x :: xs] is given a leading axis,
    so that it becomes the 2-d table of the single row [x :: xs]; reading it
    succeeds with [id_first_spike_detector = x] and [nb_spike_generator] the
    length of the array, which is what a run whose table is the 2-d array of
    that one row gets; and with readable settings and the marker found within
    the budget, [startup] returns these two values. *)
Theorem one_row_table_normalized e e2 fuel h p x xs :
  spike_generator_txt e = Some (Arr1 (x :: xs)) ->
  spike_generator_txt e2 = Some (Arr2 [x :: xs]) ->
  value (normalize (Arr1 (x :: xs)) h) = Ret (Arr2 [x :: xs]) /\
  value (read_spike_generator e p h) = Ret (x, length (x :: xs)) /\
  value (read_spike_generator e p h) = value (read_spike_generator e2 p h) /\
  (forall c (n : nat),
      value (configure e h) = Ret c ->
      (forall i : nat, (i < n)%nat -> unlock_exists e i = false) ->
      unlock_exists e n = true -> (n < fuel)%nat ->
      exists l, value (startup e fuel h) = Ret l /\
                id_first_spike_detector l = x /\
                nb_spike_generator l = length (x :: xs)).
Proof.
  intros He He2.
  split; [reflexivity|].
  split; [rewrite (read_one_row e p h x xs He); reflexivity|].
  split; [rewrite (read_one_row e p h x xs He), (read_rows e2 p h x xs [] He2); reflexivity|].
  intros c n Hc Hfalse Ht Hlt.
  rewrite (startup_found e fuel h c n Hc Hfalse Ht Hlt).
  rewrite (read_one_row e (cfg_path c) h x xs He). cbn [value locals_of].
  eexists. split; [reflexivity|]. split; reflexivity.
Qed.

Lemma one_row_table_normalized_witness :
  value (read_spike_generator env_one_row "/run" []) = Ret (4, 3%nat) /\
  value (read_spike_generator env_one_row "/run" [])
    = value (read_spike_generator env_one_row_2d "/run" []).
Proof.
  pose proof (one_row_table_normalized env_one_row env_one_row_2d 1 [] "/run" 4 [5; 6]
                eq_refl eq_refl) as (_ & H1 & H2 & _).
  split; [exact H1 | exact H2].
Defined.

(** ** The transport *)

Lemma main_constructed e fuel h :
  constructed (events (main e fuel h)) =
  match value (startup e fuel h) with
  | Ret l => constructed (events (after_startup e l h))
  | _ => []
  end.
Proof.
  destruct (value (startup e fuel h)) as [l| | |] eqn:Hv.
  - rewrite (main_after_startup e fuel h l Hv). sel. unfold constructed.
    rewrite omap_app. fold (constructed (events (startup e fuel h))).
    rewrite startup_constructed. reflexivity.
  - destruct (main_stopped e fuel h) as (-> & _); [rewrite Hv; discriminate|].
    apply startup_constructed.
  - destruct (main_stopped e fuel h) as (-> & _); [rewrite Hv; discriminate|].
    apply startup_constructed.
  - destruct (main_stopped e fuel h) as (-> & _); [rewrite Hv; discriminate|].
    apply startup_constructed.
Qed.

Lemma main_ran e fuel h :
  ran (events (main e fuel h)) =
  match value (startup e fuel h) with
  | Ret l => ran (events (after_startup e l h))
  | _ => []
  end.
Proof.
  destruct (value (startup e fuel h)) as [l| | |] eqn:Hv.
  - rewrite (main_after_startup e fuel h l Hv). sel. unfold ran.
    rewrite omap_app. fold (ran (events (startup e fuel h))).
    rewrite startup_ran. reflexivity.
  - destruct (main_stopped e fuel h) as (-> & _); [rewrite Hv; discriminate|].
    apply startup_ran.
  - destruct (main_stopped e fuel h) as (-> & _); [rewrite Hv; discriminate|].
    apply startup_ran.
  - destruct (main_stopped e fuel h) as (-> & _); [rewrite Hv; discriminate|].
    apply startup_ran.
Qed.

Lemma main_removed e fuel h :
  removed (events (main e fuel h)) =
  match value (startup e fuel h) with
  | Ret l => removed (events (after_startup e l h))
  | _ => []
  end.
Proof.
  destruct (value (startup e fuel h)) as [l| | |] eqn:Hv.
  - rewrite (main_after_startup e fuel h l Hv). sel. unfold removed.
    rewrite omap_app. fold (removed (events (startup e fuel h))).
    rewrite startup_removed. reflexivity.
  - destruct (main_stopped e fuel h) as (-> & _); [rewrite Hv; discriminate|].
    apply startup_removed.
  - destruct (main_stopped e fuel h) as (-> & _); [rewrite Hv; discriminate|].
    apply startup_removed.
  - destruct (main_stopped e fuel h) as (-> & _); [rewrite Hv; discriminate|].
    apply startup_removed.
Qed.



Lemma main_value e fuel h l :
  value (startup e fuel h) = Ret l -> value (main e fuel h) = value (after_startup e l h).
Proof. intros Hv. rewrite (main_after_startup e fuel h l Hv). reflexivity. Qed.





(** ** One stage per rank *)

Definition shares_ranks (c : ctor_call) : Prop :=
  communication_intern (keywords c) = MPICommunication /\
  buffer_r_w (keywords c) = Some [0; 2].

(** A run of rank 1 of three. *)
Definition env_rank_1 : env :=
  {| argv := ["tvb_to_nest.py"; "/run"];
     parameter_json := Some {[ "level_log" := JInt 1; "id_nest_region" := JList [0] ]};
     unlock_exists := fun _ => true;
     spike_generator_txt := Some (Arr2 [[5; 2]; [7; 3]]);
     comm_size := 3; comm_rank := 1; unlock_missing_at_remove := false |}.

(** C5: with three ranks, a run that got through [startup] constructs one
    stage, with [MPICommunication] and [buffer_r_w = [0, 2]], and runs it:
    [ProducerDataNest] on rank 0, [ConsumerTVBData] on rank 1 (run once the
    region of the transformer is found in the region list),
    [TransformationRateSpike] on rank 2. *)
Theorem process_mode_stage_of_rank e fuel h l :
  value (startup e fuel h) = Ret l -> comm_size e = 3 ->
  Forall shares_ranks (constructed (events (main e fuel h))) /\
  (comm_rank e = 0 ->
   cls <$> constructed (events (main e fuel h)) = [ProducerDataNest] /\
   fst <$> ran (events (main e fuel h)) = [ProducerDataNest]) /\
  (comm_rank e = 1 ->
   cls <$> constructed (events (main e fuel h)) = [ConsumerTVBData] /\
   (forall region rest, id_proxy l = JList (region :: rest) ->
      fst <$> ran (events (main e fuel h)) = [ConsumerTVBData])) /\
  (comm_rank e = 2 ->
   cls <$> constructed (events (main e fuel h)) = [TransformationRateSpike] /\
   fst <$> ran (events (main e fuel h)) = [TransformationRateSpike]).
Proof.
  intros Hv Hs. rewrite main_constructed, main_ran, Hv.
  destruct (startup_ret e fuel h l Hv) as (_ & _ & _ & Hrank & _). rewrite <- Hrank.
  open_script. rewrite (bool_decide_eq_true_2 _ Hs).
  split; [|split; [|split]].
  - split_tests e l; run_script; repeat constructor.
  - intros Hr. rewrite (bool_decide_eq_true_2 _ Hr).
    split_tests e l; run_script; split; reflexivity.
  - intros Hr. rewrite (bool_decide_eq_true_2 _ Hr).
    rewrite (bool_decide_eq_false_2 (rank l = 0)) by lia.
    split_tests e l; run_script; (split; [reflexivity | intros ? ? [=]; reflexivity]).
  - intros Hr. rewrite (bool_decide_eq_true_2 _ Hr).
    rewrite (bool_decide_eq_false_2 (rank l = 0)) by lia.
    rewrite (bool_decide_eq_false_2 (rank l = 1)) by lia.
    split_tests e l; run_script; split; reflexivity.
Qed.

Lemma process_mode_stage_of_rank_witness :
  cls <$> constructed (events (main env_rank_1 1 [])) = [ConsumerTVBData] /\
  fst <$> ran (events (main env_rank_1 1 [])) = [ConsumerTVBData].
Proof.
  pose proof (process_mode_stage_of_rank env_rank_1 1 []
    {| path := "/run";
       parameters := {[ "level_log" := JInt 1; "id_nest_region" := JList [0] ]};
       level_log := JInt 1; id_proxy := JList [0]; rank := 1;
       id_first_spike_detector := 5; nb_spike_generator := 2 |}) as H.
  destruct H as (_ & _ & H1 & _).
  - vm_compute. reflexivity.
  - reflexivity.
  - destruct (H1 eq_refl) as [Hc Hr]. split; [exact Hc|]. exact (Hr 0 [] eq_refl).
Defined.

(** ** The channel files of the producer *)

Lemma append_not_empty (p s : string) : s <> "" -> p +:+ s <> "".
Proof. destruct p; cbn; [trivial | discriminate]. Qed.

Lemma ends_with_sep_app (p s : string) : s <> "" -> ends_with_sep (p +:+ s) = ends_with_sep s.
Proof.
  intros Hs. induction p as [|c p IH]; [reflexivity|].
  change (String c p +:+ s) with (String c (p +:+ s)).
  destruct (p +:+ s) eqn:E; [exfalso; exact (append_not_empty p s Hs E) | exact IH].
Qed.

Lemma os_path_join_directory (p f : string) :
  starts_with_sep f = false ->
  os_path_join (p +:+ "/transformation/spike_generator/") f
  = (p +:+ "/transformation/spike_generator/") +:+ f.
Proof.
  intros Hf. unfold os_path_join. rewrite Hf.
  rewrite ends_with_sep_app by discriminate.
  replace (ends_with_sep "/transformation/spike_generator/") with true
    by (vm_compute; reflexivity).
  rewrite orb_true_r. reflexivity.
Qed.

(** The loop builds one file name per spike generator. *)
Lemma path_to_files_sends_length p first nb :
  length (path_to_files_sends p first nb) = nb.
Proof.
  unfold path_to_files_sends.
  assert (H : forall (f : nat -> string) n s acc,
             length (foldl (fun acc i => acc ++ [f i]) acc (seq s n)) = (length acc + n)%nat).
  { intros f n. induction n as [|n IH]; intros s acc; cbn [seq foldl]; [lia|].
    rewrite IH, length_app. cbn [length]. lia. }
  rewrite H. reflexivity.
Qed.

(** Scenario A of the specification, seen from rank [r]. *)
Definition env_scenario_A (r : Z) : env :=
  {| argv := ["tvb_to_nest.py"; "/run"];
     parameter_json := Some {[ "level_log" := JInt 1; "id_nest_region" := JList [0] ]};
     unlock_exists := fun _ => true;
     spike_generator_txt := Some (Arr2 [[5; 2]; [7; 3]]);
     comm_size := 3; comm_rank := r; unlock_missing_at_remove := false |}.

(** C3, as stated, fails: with the table [[5,2],[7,3]] rank 0 runs the
    producer with two channel files, not five. *)
Lemma scenario_A_not_five_files :
  exists files,
    ran (events (main (env_scenario_A 0) 1 [])) = [(ProducerDataNest, Some files)] /\
    length files = 2%nat /\ length files <> 5%nat.
Proof.
  eexists. split; [vm_compute; reflexivity|]. split; [reflexivity | cbn; lia].
Qed.

(** C3, amended: in a run with three ranks whose table is [[5,2],[7,3]],
    rank 0 constructs the producer and runs it with exactly the two channel
    files '<path>/transformation/spike_generator/5.txt' and '.../6.txt': one
    per entry of the first row of the table, numbered from its first entry. *)
Theorem scenario_A_channel_files e fuel h l :
  value (startup e fuel h) = Ret l ->
  spike_generator_txt e = Some (Arr2 [[5; 2]; [7; 3]]) ->
  comm_size e = 3 -> comm_rank e = 0 ->
  ran (events (main e fuel h)) =
    [(ProducerDataNest,
      Some [(path l +:+ "/transformation/spike_generator/") +:+ "5.txt";
            (path l +:+ "/transformation/spike_generator/") +:+ "6.txt"])].
Proof.
  intros Hv Ht Hs Hr. rewrite main_ran, Hv.
  destruct (startup_ret e fuel h l Hv) as (_ & _ & _ & Hrank & _ & _ & Hread).
  rewrite (read_rows e (path l) h 5 [2] [[7; 3]] Ht) in Hread.
  cbn [value length] in Hread. injection Hread as Hfirst Hnb.
  open_script. rewrite (bool_decide_eq_true_2 _ Hs).
  rewrite Hrank, (bool_decide_eq_true_2 _ Hr). rewrite <- Hrank.
  split_tests e l; run_script; rewrite <- Hfirst, <- Hnb;
    unfold path_to_files_sends; cbn [seq foldl app];
    replace (str (int64 (5 + Z.of_nat 0)) +:+ ".txt") with "5.txt" by (vm_compute; reflexivity);
    replace (str (int64 (5 + Z.of_nat 1)) +:+ ".txt") with "6.txt" by (vm_compute; reflexivity);
    rewrite !os_path_join_directory by reflexivity; reflexivity.
Qed.

Lemma scenario_A_channel_files_witness :
  ran (events (main (env_scenario_A 0) 1 [])) =
    [(ProducerDataNest,
      Some ["/run/transformation/spike_generator/5.txt";
            "/run/transformation/spike_generator/6.txt"])].
Proof.
  apply (scenario_A_channel_files (env_scenario_A 0) 1 []
    {| path := "/run";
       parameters := {[ "level_log" := JInt 1; "id_nest_region" := JList [0] ]};
       level_log := JInt 1; id_proxy := JList [0]; rank := 0;
       id_first_spike_detector := 5; nb_spike_generator := 2 |}).
  - vm_compute. reflexivity.
  - reflexivity.
  - reflexivity.
  - reflexivity.
Defined.

(** ** Removing the marker *)

(** A run in thread mode: one rank, which MPI numbers 0. *)
Definition env_thread_mode : env :=
  {| argv := ["tvb_to_nest.py"; "/run"];
     parameter_json := Some {[ "level_log" := JInt 1; "id_nest_region" := JList [0] ]};
     unlock_exists := fun _ => true;
     spike_generator_txt := Some (Arr2 [[5; 2]; [7; 3]]);
     comm_size := 1; comm_rank := 0; unlock_missing_at_remove := false |}.

(** C1, at the failing input: the run with a single rank goes through the
    whole script (it returns), starts and joins its three threads, and
    removes nothing: the unlock marker is still there when it ends. *)
Theorem thread_mode_leaves_marker :
  value (main env_thread_mode 1 []) = Ret tt /\
  joined (events (main env_thread_mode 1 []))
    = [TransformationRateSpike; ConsumerTVBData; ProducerDataNest] /\
  removed (events (main env_thread_mode 1 [])) = [].
Proof. vm_compute. repeat split. Qed.

(** X1.  In every run the script removes at most the marker, and only rank 1
    does: a run of any other rank, the single rank of thread mode included,
    ends without an [os.remove]. *)
Lemma removed_by_rank_1_only e fuel h :
  removed (events (main e fuel h)) = [] \/
  (comm_rank e = 1 /\
   removed (events (main e fuel h)) = [unlock_file (default "" (argv e !! 1%nat))]).
Proof.
  rewrite main_removed.
  destruct (value (startup e fuel h)) as [l| | |] eqn:Hv; try (left; reflexivity).
  destruct (startup_ret e fuel h l Hv) as (_ & _ & Hpath & Hrank & _).
  rewrite <- Hpath, <- Hrank.
  open_script. split_tests e l; run_script; read_tests;
    first [left; reflexivity | right; split; [assumption | reflexivity]].
Qed.

(** X2.  On rank 1 of three, the marker is removed after the stage of that
    rank has run, as the last call of the script. *)
Lemma rank_1_removes_last e fuel h l region rest :
  value (startup e fuel h) = Ret l -> comm_size e = 3 -> comm_rank e = 1 ->
  id_proxy l = JList (region :: rest) ->
  exists tr files,
    events (main e fuel h) =
      tr ++ [ERun ConsumerTVBData (Some files); ERemove (unlock_file (path l))].
Proof.
  intros Hv Hs Hr Hp. rewrite (main_after_startup e fuel h l Hv). sel.
  destruct (startup_ret e fuel h l Hv) as (_ & _ & _ & Hrank & _).
  open_script. rewrite Hp, (bool_decide_eq_true_2 _ Hs), Hrank, (bool_decide_eq_true_2 _ Hr).
  rewrite (bool_decide_eq_false_2 (comm_rank e = 0)) by lia.
  split_tests e l; run_script;
    eexists (events (startup e fuel h) ++ [EGetSize; EConstruct _]), _;
    rewrite <- app_assoc; reflexivity.
Qed.

Lemma rank_1_removes_last_witness :
  exists tr files,
    events (main env_rank_1 1 []) =
      tr ++ [ERun ConsumerTVBData (Some files); ERemove (unlock_file "/run")].
Proof.
  apply (rank_1_removes_last env_rank_1 1 []
           {| path := "/run";
              parameters := {[ "level_log" := JInt 1; "id_nest_region" := JList [0] ]};
              level_log := JInt 1; id_proxy := JList [0]; rank := 1;
              id_first_spike_detector := 5; nb_spike_generator := 2 |} 0 []).
  - vm_compute. reflexivity.
  - reflexivity.
  - reflexivity.
  - reflexivity.
Defined.

(** ** Thread mode: the stages share their buffers *)

(** The local variables of a run with one rank. *)
Definition locals_thread_mode : locals :=
  {| path := "/run";
     parameters := {[ "level_log" := JInt 1; "id_nest_region" := JList [0] ]};
     level_log := JInt 1; id_proxy := JList [0]; rank := 0;
     id_first_spike_detector := 5; nb_spike_generator := 2 |}.

(** C8: in thread mode (the region of the transformer being found in the
    region list, so that the three constructors are reached) the script builds
    three stages over six objects of the store: the status array [s1], the
    buffer [b1] and the lock [k1] the consumer writes are the very objects the
    transformer reads, the status array [s2], the buffer [b2] and the lock
    [k2] the transformer writes are the very objects the producer reads, and
    the six are pairwise distinct; [b1] is the 2x2 buffer and [b2] the
    3000000x1 buffer. *)
Theorem thread_mode_buffers_chained l h region rest :
  id_proxy l = JList (region :: rest) ->
  exists w files (s1 b1 k1 s2 b2 k2 : loc),
    value (thread_stages l h) = Ret (w, files) /\
    communication_internal (receive_data_to_TVB w) =
      {| buffer_write_data := Some b1; status_write := Some s1; lock_write := Some k1;
         buffer_read_data := None; comm_status_read := None; comm_lock_read := None |} /\
    communication_internal (transform_rate_to_spike w) =
      {| buffer_write_data := Some b2; status_write := Some s2; lock_write := Some k2;
         buffer_read_data := Some b1; comm_status_read := Some s1;
         comm_lock_read := Some k1 |} /\
    communication_internal (send_data_to_Nest w) =
      {| buffer_write_data := None; status_write := None; lock_write := None;
         buffer_read_data := Some b2; comm_status_read := Some s2;
         comm_lock_read := Some k2 |} /\
    NoDup [s1; b1; k1; s2; b2; k2] /\
    final (thread_stages l h) !! b1 = Some (ONdarray [2; 2] DFloat None) /\
    final (thread_stages l h) !! b2 = Some (ONdarray [1000000 * 3; 1] DFloat None).
Proof.
  intros Hp. unfold thread_stages, receive_file, json_index, id_transformer. rewrite Hp.
  run_script. rewrite !length_app. cbn [length].
  eexists _, _, (length h), (length h + 1)%nat, (length h + 1 + 1)%nat,
    (length h + 1 + 1 + 1)%nat, (length h + 1 + 1 + 1 + 1)%nat,
    (length h + 1 + 1 + 1 + 1 + 1)%nat.
  split; [reflexivity|]. split; [reflexivity|]. split; [reflexivity|]. split; [reflexivity|].
  split; [|split].
  - repeat match goal with
           | |- NoDup [] => apply NoDup_nil_2
           | |- NoDup (_ :: _) => apply NoDup_cons_2
           | |- _ ∉ [] => apply not_elem_of_nil
           | |- _ ∉ _ :: _ => apply not_elem_of_cons; split; [lia|]
           end.
  - repeat (rewrite lookup_app_l by (rewrite !length_app; cbn [length]; lia)).
    apply list_lookup_middle. rewrite !length_app. reflexivity.
  - repeat (rewrite lookup_app_l by (rewrite !length_app; cbn [length]; lia)).
    apply list_lookup_middle. rewrite !length_app. reflexivity.
Qed.

Lemma thread_mode_buffers_chained_witness :
  exists w files (s1 b1 k1 s2 b2 k2 : loc),
    value (thread_stages locals_thread_mode []) = Ret (w, files) /\
    communication_internal (receive_data_to_TVB w) =
      {| buffer_write_data := Some b1; status_write := Some s1; lock_write := Some k1;
         buffer_read_data := None; comm_status_read := None; comm_lock_read := None |} /\
    communication_internal (transform_rate_to_spike w) =
      {| buffer_write_data := Some b2; status_write := Some s2; lock_write := Some k2;
         buffer_read_data := Some b1; comm_status_read := Some s1;
         comm_lock_read := Some k1 |} /\
    communication_internal (send_data_to_Nest w) =
      {| buffer_write_data := None; status_write := None; lock_write := None;
         buffer_read_data := Some b2; comm_status_read := Some s2;
         comm_lock_read := Some k2 |} /\
    NoDup [s1; b1; k1; s2; b2; k2] /\
    final (thread_stages locals_thread_mode []) !! b1 = Some (ONdarray [2; 2] DFloat None) /\
    final (thread_stages locals_thread_mode []) !! b2
      = Some (ONdarray [1000000 * 3; 1] DFloat None).
Proof. exact (thread_mode_buffers_chained locals_thread_mode [] 0 [] eq_refl). Defined.

(** ** Errors in the configuration *)

Lemma bind_raise {A B} (m : M A) (f : A -> M B) h t h1 x :
  m h = Run t h1 (Raise x) -> (m ≫= f) h = Run t h1 (Raise x).
Proof. intros Hm. unfold mbind, M_bind. rewrite Hm. reflexivity. Qed.

Lemma bind_waiting {A B} (m : M A) (f : A -> M B) h t h1 :
  m h = Run t h1 Waiting -> (m ≫= f) h = Run t h1 Waiting.
Proof. intros Hm. unfold mbind, M_bind. rewrite Hm. reflexivity. Qed.

Lemma bind_returned {A B} (m : M A) (f : A -> M B) h t h1 a :
  m h = Run t h1 (Ret a) ->
  (m ≫= f) h = Run (t ++ events (f a h1)) (final (f a h1)) (value (f a h1)).
Proof.
  intros Hm. unfold mbind, M_bind. rewrite Hm. destruct (f a h1). reflexivity.
Qed.

(** A run whose [parameter.json] has neither of the two keys. *)
Definition env_no_parameters : env :=
  {| argv := ["tvb_to_nest.py"; "/run"];
     parameter_json := Some ∅;
     unlock_exists := fun _ => true;
     spike_generator_txt := Some (Arr2 [[5; 2]; [7; 3]]);
     comm_size := 3; comm_rank := 0; unlock_missing_at_remove := false |}.

(** X3.  If [parameter.json] lacks [level_log] or [id_nest_region], the
    script stops with a [KeyError] right after opening the file: no logger
    is created, the marker is not polled, and no stage is constructed.
    [level_log] is looked up first: the key of the error is [level_log]
    whenever it is missing, also when both are, and [id_nest_region] only
    when [level_log] is there. *)
Theorem missing_parameter_stops e fuel h d :
  length (argv e) = 2%nat -> parameter_json e = Some d ->
  d !! "level_log" = None \/ d !! "id_nest_region" = None ->
  exists key,
    key = match d !! "level_log" with
          | None => "level_log"
          | Some _ => "id_nest_region"
          end /\
    d !! key = None /\
    main e fuel h =
      Run [EOpen (default "" (argv e !! 1%nat) +:+ "/parameter.json")] h
          (Raise (KeyError key)).
Proof.
  intros Ha Hd Hk.
  assert (Hc : exists key,
             key = match d !! "level_log" with
                   | None => "level_log"
                   | Some _ => "id_nest_region"
                   end /\
             d !! key = None /\
             configure e h =
               Run [EOpen (default "" (argv e !! 1%nat) +:+ "/parameter.json")] h
                   (Raise (KeyError key))).
  { unfold configure, dict_get.
    rewrite bool_decide_eq_false_2 by (intros Hne; exact (Hne Ha)).
    rewrite Hd. run_monad.
    destruct (d !! "level_log") as [lv|] eqn:E1; run_monad.
    - destruct Hk as [Hk|Hk]; [discriminate|]. rewrite Hk. run_monad.
      exists "id_nest_region". split; [reflexivity|]. split; [exact Hk|].
      reflexivity.
    - exists "level_log". split; [reflexivity|]. split; [exact E1|].
      reflexivity. }
  destruct Hc as (key & Hkey & Hnone & Hc).
  exists key. split; [exact Hkey|]. split; [exact Hnone|].
  unfold main, startup. apply bind_raise, bind_raise. exact Hc.
Qed.

Lemma missing_parameter_stops_witness :
  exists key,
    key = match (∅ : gmap string jvalue) !! "level_log" with
          | None => "level_log"
          | Some _ => "id_nest_region"
          end /\
    (∅ : gmap string jvalue) !! key = None /\
    main env_no_parameters 3 [] =
      Run [EOpen (default "" (argv env_no_parameters !! 1%nat) +:+ "/parameter.json")] []
          (Raise (KeyError key)).
Proof.
  apply (missing_parameter_stops env_no_parameters 3 [] ∅).
  - reflexivity.
  - reflexivity.
  - left. reflexivity.
Defined.

(** ** A marker that does not come *)

Lemma wait_for_unlock_missing e p fuel k h :
  (forall i : nat, (i < fuel)%nat -> unlock_exists e (k + i) = false) ->
  wait_for_unlock e p fuel k h = Run (retries p fuel) h Waiting.
Proof.
  intros Hm.
  destruct (wait_for_unlock_run e p fuel k h) as (n & Hn & _ & [(Ht & Hlt & _)|(-> & Hw)]).
  - rewrite Hm in Ht by exact Hlt. discriminate.
  - exact Hw.
Qed.




(** A run that never sees the marker. *)
Definition env_no_marker : env :=
  {| argv := ["tvb_to_nest.py"; "/run"];
     parameter_json := Some {[ "level_log" := JInt 1; "id_nest_region" := JList [0] ]};
     unlock_exists := fun _ => false;
     spike_generator_txt := Some (Arr2 [[5; 2]; [7; 3]]);
     comm_size := 3; comm_rank := 0; unlock_missing_at_remove := false |}.

(** X4.  The polling loop has no time limit: as long as the marker is
    missing the script is still waiting, and all it has done after the
    configuration is, for each check, one log message and one sleep of one
    second; the table is not read and no stage is constructed. *)
Theorem waits_while_marker_missing e fuel h d lv ip :
  length (argv e) = 2%nat -> parameter_json e = Some d ->
  d !! "level_log" = Some lv -> d !! "id_nest_region" = Some ip ->
  (forall i : nat, (i < fuel)%nat -> unlock_exists e i = false) ->
  main e fuel h =
    Run ([EOpen (default "" (argv e !! 1%nat) +:+ "/parameter.json");
          ECreateLogger (default "" (argv e !! 1%nat)) "tvb_to_nest_0" lv; EGetRank]
         ++ retries (default "" (argv e !! 1%nat)) fuel) h Waiting.
Proof.
  intros Ha Hd Hl Hi Hm.
  unfold main. apply bind_waiting. unfold startup.
  rewrite (bind_returned _ _ _ _ _ _ (configure_ok e h d lv ip Ha Hd Hl Hi)).
  cbn [cfg_path].
  rewrite (bind_waiting _ _ _ _ _ (wait_for_unlock_missing e _ fuel 0 h Hm)).
  reflexivity.
Qed.

Lemma waits_while_marker_missing_witness :
  main env_no_marker 2 [] =
    Run ([EOpen (default "" (argv env_no_marker !! 1%nat) +:+ "/parameter.json");
          ECreateLogger (default "" (argv env_no_marker !! 1%nat)) "tvb_to_nest_0" (JInt 1);
          EGetRank]
         ++ retries (default "" (argv env_no_marker !! 1%nat)) 2) [] Waiting.
Proof.
  apply (waits_while_marker_missing env_no_marker 2 []
           {[ "level_log" := JInt 1; "id_nest_region" := JList [0] ]} (JInt 1) (JList [0])).
  - reflexivity.
  - reflexivity.
  - vm_compute. reflexivity.
  - vm_compute. reflexivity.
  - intros i _. reflexivity.
Defined.

(** ** A table with no first entry *)

(** The tables from which [spike_generator[0][0]] cannot be read: a single
    number, an empty array, a table whose first row is empty. *)
Definition no_first_entry (a : ndarray) : Prop :=
  match a with
  | Arr1 (_ :: _) | Arr2 ((_ :: _) :: _) => False
  | _ => True
  end.

Lemma read_unusable_table e p h a :
  spike_generator_txt e = Some a -> no_first_entry a ->
  value (read_spike_generator e p h) = Raise IndexError.
Proof.
  intros Ht Hb.
  destruct a as [x|[|x xs]|[|[|x xs] rows]]; try contradiction;
    unfold read_spike_generator; rewrite Ht; run_table; reflexivity.
Qed.

Lemma main_raised e fuel h x :
  value (startup e fuel h) = Raise x ->
  value (main e fuel h) = Raise x /\ events (main e fuel h) = events (startup e fuel h).
Proof.
  intros Hv. unfold main.
  rewrite (bind_raise (startup e fuel) _ h (events (startup e fuel h))
             (final (startup e fuel h)) x).
  - split; reflexivity.
  - rewrite (run_eta (startup e fuel h)) at 1. rewrite Hv. reflexivity.
Qed.

(** A run whose table file holds a single number. *)
Definition env_one_number : env :=
  {| argv := ["tvb_to_nest.py"; "/run"];
     parameter_json := Some {[ "level_log" := JInt 1; "id_nest_region" := JList [0] ]};
     unlock_exists := fun _ => true;
     spike_generator_txt := Some (Arr0 5);
     comm_size := 3; comm_rank := 0; unlock_missing_at_remove := false |}.

(** X5.  A table file with a single number, with no number, or with an
    empty first row makes the script raise [IndexError] at
    [spike_generator[0][0]], after the normalization and before any stage is
    constructed; the marker is not removed. *)
Theorem unusable_table_raises e fuel h c (n : nat) a :
  value (configure e h) = Ret c ->
  (forall i : nat, (i < n)%nat -> unlock_exists e i = false) ->
  unlock_exists e n = true -> (n < fuel)%nat ->
  spike_generator_txt e = Some a -> no_first_entry a ->
  value (main e fuel h) = Raise IndexError /\
  constructed (events (main e fuel h)) = [] /\
  removed (events (main e fuel h)) = [].
Proof.
  intros Hc Hm Hf Hn Ht Hb.
  pose proof (startup_found e fuel h c n Hc Hm Hf Hn) as Hv.
  rewrite (read_unusable_table e (cfg_path c) h a Ht Hb) in Hv. cbn [locals_of] in Hv.
  destruct (main_raised e fuel h IndexError Hv) as [Hval _].
  split; [exact Hval|].
  rewrite main_constructed, main_removed, Hv. split; reflexivity.
Qed.

Lemma unusable_table_raises_witness :
  value (main env_one_number 1 []) = Raise IndexError /\
  constructed (events (main env_one_number 1 [])) = [] /\
  removed (events (main env_one_number 1 [])) = [].
Proof.
  eapply (unusable_table_raises env_one_number 1 [] _ 0 (Arr0 5)).
  - vm_compute. reflexivity.
  - intros i Hi. lia.
  - reflexivity.
  - lia.
  - reflexivity.
  - exact I.
Defined.

(** ** Transformers without a region *)

(** The threads started and joined, in order. *)
Definition threads (tr : list event) : list event :=
  omap (fun ev => match ev with
                  | EThreadStart _ _ | EThreadJoin _ => Some ev
                  | _ => None
                  end) tr.

Lemma startup_threads e fuel h : threads (events (startup e fuel h)) = [].
Proof.
  apply omap_none. eapply Forall_impl; [apply startup_no_pipeline_event|].
  intros [] Hp; cbn [pipeline_event] in Hp; congruence.
Qed.

Lemma main_threads e fuel h l :
  value (startup e fuel h) = Ret l ->
  threads (events (main e fuel h)) = threads (events (after_startup e l h)).
Proof.
  intros Hv. rewrite (main_after_startup e fuel h l Hv). sel. unfold threads.
  rewrite omap_app. fold (threads (events (startup e fuel h))).
  rewrite startup_threads. reflexivity.
Qed.

(** A run whose [id_nest_region] is empty, seen from rank 1. *)
Definition env_no_region : env :=
  {| argv := ["tvb_to_nest.py"; "/run"];
     parameter_json := Some {[ "level_log" := JInt 1; "id_nest_region" := JList [] ]};
     unlock_exists := fun _ => true;
     spike_generator_txt := Some (Arr2 [[5; 2]; [7; 3]]);
     comm_size := 3; comm_rank := 1; unlock_missing_at_remove := false |}.

(** X7.  When [id_nest_region] is an empty list, rank 1 of three, and the
    single process of thread mode, construct the consumer of TVB data and
    then raise [IndexError] at [id_proxy[id_transformer]]: the stage is never
    run, no thread is started, and the marker is not removed. *)
Theorem no_region_for_transformer e fuel h l :
  value (startup e fuel h) = Ret l -> id_proxy l = JList [] ->
  (comm_size e = 3 /\ comm_rank e = 1) \/ comm_size e = 1 ->
  value (main e fuel h) = Raise IndexError /\
  cls <$> constructed (events (main e fuel h)) = [ConsumerTVBData] /\
  ran (events (main e fuel h)) = [] /\
  threads (events (main e fuel h)) = [] /\
  removed (events (main e fuel h)) = [].
Proof.
  intros Hv Hp Hmode.
  rewrite main_constructed, main_ran, main_removed, (main_threads e fuel h l Hv),
    (main_value e fuel h l Hv), Hv.
  destruct (startup_ret e fuel h l Hv) as (_ & _ & _ & Hrank & _).
  open_script. rewrite Hp.
  destruct Hmode as [[Hs Hr]|Hs].
  - rewrite (bool_decide_eq_true_2 _ Hs). rewrite Hrank.
    rewrite (bool_decide_eq_false_2 (comm_rank e = 0)) by lia.
    rewrite (bool_decide_eq_true_2 _ Hr).
    run_script. repeat split.
  - rewrite (bool_decide_eq_false_2 (comm_size e = 3)) by lia.
    rewrite (bool_decide_eq_true_2 _ Hs).
    run_script. repeat split.
Qed.

Lemma no_region_for_transformer_witness :
  value (main env_no_region 1 []) = Raise IndexError /\
  cls <$> constructed (events (main env_no_region 1 [])) = [ConsumerTVBData] /\
  ran (events (main env_no_region 1 [])) = [] /\
  threads (events (main env_no_region 1 [])) = [] /\
  removed (events (main env_no_region 1 [])) = [].
Proof.
  eapply (no_region_for_transformer env_no_region 1 []).
  - vm_compute. reflexivity.
  - reflexivity.
  - left. split; reflexivity.
Defined.

(** ** Thread mode: starting and joining *)

(** X8.  In thread mode (one rank, which MPI numbers 0, and a region for
    the transformer) no stage is run in the calling thread: the three stages
    are started as threads, the consumer with its one file, the transformer
    with [None], the producer with the channel files, in that order; then the
    script joins the transformer, the consumer and the producer, and returns
    only after the three joins. *)
Theorem thread_mode_starts_then_joins e fuel h l region rest :
  value (startup e fuel h) = Ret l -> comm_size e = 1 -> comm_rank e = 0 ->
  id_proxy l = JList (region :: rest) ->
  threads (events (main e fuel h)) =
    [EThreadStart ConsumerTVBData
       (Some [path l +:+ "/transformation/receive_from_tvb/" +:+ str region +:+ ".txt"]);
     EThreadStart TransformationRateSpike None;
     EThreadStart ProducerDataNest
       (Some (path_to_files_sends (path l) (id_first_spike_detector l)
                (nb_spike_generator l)));
     EThreadJoin TransformationRateSpike;
     EThreadJoin ConsumerTVBData;
     EThreadJoin ProducerDataNest] /\
  ran (events (main e fuel h)) = [] /\
  value (main e fuel h) = Ret tt.
Proof.
  intros Hv Hs Hr Hp.
  rewrite main_ran, (main_threads e fuel h l Hv), (main_value e fuel h l Hv), Hv.
  destruct (startup_ret e fuel h l Hv) as (_ & _ & _ & Hrank & _).
  open_script. rewrite Hp.
  rewrite (bool_decide_eq_false_2 (comm_size e = 3)) by lia.
  rewrite (bool_decide_eq_true_2 _ Hs). rewrite Hrank.
  rewrite (bool_decide_eq_false_2 (comm_rank e = 1)) by lia.
  run_script. repeat split.
Qed.

Lemma thread_mode_starts_then_joins_witness :
  threads (events (main env_thread_mode 1 [])) =
    [EThreadStart ConsumerTVBData
       (Some ["/run" +:+ "/transformation/receive_from_tvb/" +:+ str 0 +:+ ".txt"]);
     EThreadStart TransformationRateSpike None;
     EThreadStart ProducerDataNest (Some (path_to_files_sends "/run" 5 2));
     EThreadJoin TransformationRateSpike;
     EThreadJoin ConsumerTVBData;
     EThreadJoin ProducerDataNest] /\
  ran (events (main env_thread_mode 1 [])) = [] /\
  value (main env_thread_mode 1 []) = Ret tt.
Proof.
  apply (thread_mode_starts_then_joins env_thread_mode 1 [] locals_thread_mode 0 []).
  - vm_compute. reflexivity.
  - reflexivity.
  - reflexivity.
  - reflexivity.
Defined.

(** ** The channel files, in general *)

Lemma starts_with_sep_app (a b : string) :
  starts_with_sep a = false -> starts_with_sep b = false ->
  starts_with_sep (a +:+ b) = false.
Proof. destruct a; cbn; auto. Qed.

Lemma pretty_N_go_no_sep (x : N) (s : string) :
  starts_with_sep s = false -> starts_with_sep (pretty_N_go x s) = false.
Proof.
  revert s. induction (N.lt_wf_0 x) as [x _ IH]; intros s Hs.
  destruct (decide (x = 0%N)) as [->|Hx].
  - rewrite pretty_N_go_0. exact Hs.
  - rewrite pretty_N_go_step by lia. apply IH.
    + apply N.div_lt; lia.
    + unfold pretty_N_char. repeat case_match; reflexivity.
Qed.

(** [str] of an integer never starts with the separator. *)
Lemma str_no_sep (z : Z) : starts_with_sep (str z) = false.
Proof.
  unfold str, pretty, pretty_Z.
  assert (HN : forall p, starts_with_sep (pretty (N.pos p)) = false).
  { intros p. unfold pretty, pretty_N. destruct (decide (N.pos p = 0%N)); [reflexivity|].
    apply pretty_N_go_no_sep. reflexivity. }
  destruct z as [|p|p]; [reflexivity | apply HN | reflexivity].
Qed.

Lemma string_length_app (a b : string) :
  String.length (a +:+ b) = (String.length a + String.length b)%nat.
Proof.
  induction a as [|c a IH]; [reflexivity|].
  change (String c a +:+ b) with (String c (a +:+ b)).
  cbn [String.length]. rewrite IH. reflexivity.
Qed.

Lemma string_app_inj_r (a b t : string) : a +:+ t = b +:+ t -> a = b.
Proof.
  revert b. induction a as [|c a IH]; intros [|c' b] H.
  - reflexivity.
  - apply (f_equal String.length) in H.
    change ("" +:+ t) with t in H. rewrite string_length_app in H.
    cbn [String.length] in H. lia.
  - apply (f_equal String.length) in H.
    change ("" +:+ t) with t in H. rewrite string_length_app in H.
    cbn [String.length] in H. lia.
  - change (String c a +:+ t) with (String c (a +:+ t)) in H.
    change (String c' b +:+ t) with (String c' (b +:+ t)) in H.
    injection H as -> H. f_equal. apply IH, H.
Qed.

Lemma int64_inj_near (first : Z) (i j : Z) :
  0 <= i < 2 ^ 64 -> 0 <= j < 2 ^ 64 ->
  int64 (first + i) = int64 (first + j) -> i = j.
Proof.
  unfold int64. intros Hi Hj H.
  assert (Hm : (first + i + 2 ^ 63) mod 2 ^ 64 = (first + j + 2 ^ 63) mod 2 ^ 64) by lia.
  pose proof (Z.div_mod (first + i + 2 ^ 63) (2 ^ 64) ltac:(lia)) as Di.
  pose proof (Z.div_mod (first + j + 2 ^ 63) (2 ^ 64) ltac:(lia)) as Dj.
  rewrite Hm in Di.
  assert (i - j = 2 ^ 64 * ((first + i + 2 ^ 63) / 2 ^ 64 - (first + j + 2 ^ 63) / 2 ^ 64))
    by lia.
  nia.
Qed.

(** The name of the file of the [i]-th spike generator. *)
Definition channel_file (p : string) (first : Z) (i : nat) : string :=
  (p +:+ "/transformation/spike_generator/") +:+ str (int64 (first + Z.of_nat i)) +:+ ".txt".

Lemma path_to_files_sends_eq p first nb :
  path_to_files_sends p first nb = channel_file p first <$> seq 0 nb.
Proof.
  unfold path_to_files_sends.
  assert (H : forall n s acc,
             foldl (fun acc i =>
                      acc ++ [os_path_join (p +:+ "/transformation/spike_generator/")
                                (str (int64 (first + Z.of_nat i)) +:+ ".txt")])
                   acc (seq s n)
             = acc ++ (channel_file p first <$> seq s n)).
  { intros n. induction n as [|n IH]; intros s acc; cbn [seq foldl fmap list_fmap].
    - rewrite app_nil_r. reflexivity.
    - rewrite IH, <- app_assoc. cbn [app]. unfold channel_file at 2.
      rewrite os_path_join_directory; [reflexivity|].
      apply starts_with_sep_app; [apply str_no_sep | reflexivity]. }
  rewrite H. reflexivity.
Qed.

(** X9.  The loop over [range(nb_spike_generator)] yields, in order, the
    files '<path>/transformation/spike_generator/<id>.txt' for the ids
    [id_first_spike_detector], [id_first_spike_detector + 1], ...: one per
    spike generator, directly under that directory whatever the id, and no
    two of them the same file. *)
Theorem channel_files_distinct p first nb :
  Z.of_nat nb <= 2 ^ 64 ->
  path_to_files_sends p first nb = channel_file p first <$> seq 0 nb /\
  length (path_to_files_sends p first nb) = nb /\
  NoDup (path_to_files_sends p first nb).
Proof.
  intros Hnb. split; [apply path_to_files_sends_eq|].
  split; [apply path_to_files_sends_length|].
  rewrite path_to_files_sends_eq.
  apply NoDup_fmap_2_strong; [|apply NoDup_seq].
  intros i j Hi Hj Heq.
  apply elem_of_seq in Hi, Hj.
  unfold channel_file in Heq.
  apply (inj (String.app _)) in Heq.
  apply string_app_inj_r in Heq.
  apply (inj pretty) in Heq.
  apply int64_inj_near in Heq; lia.
Qed.

Lemma channel_files_distinct_witness :
  path_to_files_sends "/run" 5 2 = channel_file "/run" 5 <$> seq 0 2 /\
  length (path_to_files_sends "/run" 5 2) = 2%nat /\
  NoDup (path_to_files_sends "/run" 5 2).
Proof. apply (channel_files_distinct "/run" 5 2). vm_compute. discriminate. Defined.

End TvbToNestProofs.

(* ===================================================================== *)
(** * Properties of the serial co-simulation loop                         *)
(* ===================================================================== *)

Module BackendProofs.
Import Backend.

(** ** Numbers *)

(** [too_large] is where the nearest float becomes the infinity. *)
Lemma float_of_int_largest :
  (too_large (2 ^ 1024 - 2 ^ 970 - 1) = false) /\
  (Prim2SF (float_of_int (2 ^ 1024 - 2 ^ 970 - 1))
   = S754_finite false (2 ^ 53 - 1)%positive 971) /\
  (too_large (2 ^ 1024 - 2 ^ 970) = true) /\
  (Prim2SF (float_of_int (2 ^ 1024 - 2 ^ 970)) = S754_infinity false).
Proof. vm_compute. repeat split. Qed.

(** The integers of 64 bits are far from it. *)
Lemma too_large_int64 (z : Z) : Z.abs z < 2 ^ 63 -> too_large z = false.
Proof.
  intros H. unfold too_large. apply Z.leb_gt.
  apply Z.lt_le_trans with (2 ^ 63); [exact H|]. vm_compute. discriminate.
Qed.

Section Apps.

Context {update tvb_state nest_state tvb_to_nest_state nest_to_tvb_state : Type}.

Variable tvb_run :
  option update -> TVBApp update tvb_state -> option update * TVBApp update tvb_state.
Variable nest_run :
  option update -> NESTApp nest_state -> option update * NESTApp nest_state.
Variable tvb_to_nest_run :
  option update -> tvb_to_nest_state -> option update * tvb_to_nest_state.
Variable nest_to_tvb_run :
  option update -> nest_to_tvb_state -> option update * nest_to_tvb_state.
Variable now : float.

Abbreviation world := (world update tvb_state nest_state tvb_to_nest_state nest_to_tvb_state).
Abbreviation loop_state :=
  (loop_state update tvb_state nest_state tvb_to_nest_state nest_to_tvb_state).
Abbreviation synchronize :=
  (run_for_synchronization_time tvb_run nest_run tvb_to_nest_run nest_to_tvb_run).
Abbreviation cosimulate :=
  (run_cosimulation tvb_run nest_run tvb_to_nest_run nest_to_tvb_run now).
Abbreviation iterate := (loop tvb_run nest_run tvb_to_nest_run nest_to_tvb_run).

(** ** Reading the calls *)

#[local] Instance app_eq_dec : EqDecision app.
Proof. solve_decision. Defined.

(** The input and the output of a call, if it is a call of the app [a]. *)
Definition call_of (a : app) (c : call update) : option (option update * option update) :=
  match c with
  | Called b input output => if decide (a = b) then Some (input, output) else None
  | Progress _ _ => None
  end.

(** The calls of the app [a], in order. *)
Definition calls_of (a : app) (cs : list (call update)) :
    list (option update * option update) :=
  omap (call_of a) cs.

(** The progress messages, in order. *)
Definition reports (cs : list (call update)) : list (Z * float) :=
  omap (fun c => match c with Progress n l => Some (n, l) | Called _ _ _ => None end) cs.

(** A TVB app that reports as many steps as it was asked to simulate. *)
Definition obedient : Prop :=
  forall input a,
    n_tvb_steps_ran_since_last_synch (cosimulator (snd (tvb_run input a)))
    = synchronization_n_step (cosimulator a).

(** ** One synchronization *)

(** The calls a transformer adds: one when it is given an update, none when
    it is given [None]. *)
Definition transformer_calls (a : app) (input output : option update) : list (call update) :=
  match input with
  | Some _ => [Called a input output]
  | None => []
  end.

(** Everything one synchronization does, in terms of the four methods. *)
Lemma synchronize_eq (tvb_in nest_in : option update) (w : world) :
  let to_nest := match tvb_in with
                 | Some _ => fst (tvb_to_nest_run tvb_in (tvb_to_nest_app w))
                 | None => None
                 end in
  let to_tvb := match nest_in with
                | Some _ => fst (nest_to_tvb_run nest_in (nest_to_tvb_app w))
                | None => None
                end in
  let tvb := tvb_run to_tvb (tvb_app w) in
  let nest := nest_run to_nest (nest_app w) in
  synchronize tvb_in nest_in w =
    ((fst tvb, fst nest),
     {| tvb_app := snd tvb;
        nest_app := snd nest;
        tvb_to_nest_app := match tvb_in with
                           | Some _ => snd (tvb_to_nest_run tvb_in (tvb_to_nest_app w))
                           | None => tvb_to_nest_app w
                           end;
        nest_to_tvb_app := match nest_in with
                           | Some _ => snd (nest_to_tvb_run nest_in (nest_to_tvb_app w))
                           | None => nest_to_tvb_app w
                           end;
        calls := calls w ++ transformer_calls TVB_TO_NEST tvb_in to_nest
                         ++ transformer_calls NEST_TO_TVB nest_in to_tvb
                         ++ [Called TVB to_tvb (fst tvb); Called NEST to_nest (fst nest)] |}).
Proof.
  cbv zeta.
  unfold run_for_synchronization_time, call_tvb, call_nest, call_tvb_to_nest,
    call_nest_to_tvb, log, transformer_calls.
  destruct w as [ta na t2n n2t cs].
  destruct tvb_in as [u|], nest_in as [v|];
    repeat (cbn [tvb_app nest_app tvb_to_nest_app nest_to_tvb_app calls fst snd];
            match goal with
            | |- context [tvb_to_nest_run ?i t2n] => destruct (tvb_to_nest_run i t2n)
            | |- context [nest_to_tvb_run ?i n2t] => destruct (nest_to_tvb_run i n2t)
            | |- context [tvb_run ?i ta] => destruct (tvb_run i ta)
            | |- context [nest_run ?i na] => destruct (nest_run i na)
            end);
    cbn [tvb_app nest_app tvb_to_nest_app nest_to_tvb_app calls fst snd];
    rewrite <- ?app_assoc; reflexivity.
Qed.

(** C9.  One call of [run_for_synchronization_time] adds to the calls made so
    far: the TVB -> NEST transformer if and only if the TVB update is not
    [None], the NEST -> TVB transformer if and only if the NEST update is not
    [None], then TVB once and NEST once.  A transformer that is not called
    leaves [None] as the input of the simulator it feeds, and its app is
    untouched.  The pair returned is (output of TVB, output of NEST). *)
Theorem simulators_run_once (tvb_in nest_in : option update) (w : world) :
  exists to_nest to_tvb tvb_out nest_out w',
    synchronize tvb_in nest_in w = ((tvb_out, nest_out), w') /\
    calls w' = calls w ++ transformer_calls TVB_TO_NEST tvb_in to_nest
                       ++ transformer_calls NEST_TO_TVB nest_in to_tvb
                       ++ [Called TVB to_tvb tvb_out; Called NEST to_nest nest_out] /\
    (tvb_in = None ->
     transformer_calls TVB_TO_NEST tvb_in to_nest = [] /\ to_nest = None /\
     tvb_to_nest_app w' = tvb_to_nest_app w) /\
    (nest_in = None ->
     transformer_calls NEST_TO_TVB nest_in to_tvb = [] /\ to_tvb = None /\
     nest_to_tvb_app w' = nest_to_tvb_app w) /\
    (tvb_out, tvb_app w') = tvb_run to_tvb (tvb_app w) /\
    (nest_out, nest_app w') = nest_run to_nest (nest_app w).
Proof.
  pose proof (synchronize_eq tvb_in nest_in w) as E. cbv zeta in E.
  eexists _, _, _, _, _. split; [exact E|].
  cbn [calls tvb_app nest_app tvb_to_nest_app nest_to_tvb_app].
  split; [reflexivity|].
  split; [intros ->; repeat split|].
  split; [intros ->; repeat split|].
  split; symmetry; apply surjective_pairing.
Qed.

(** ** The loop *)

(** One pass through the body of the loop (lines 90-99): the steps left and
    the local variables after it. *)
Definition iteration (dt simulation_length : float) (synchronization_n_step : Z)
    (remaining_steps : Z) (s : loop_state) : Z * loop_state :=
  let n := Z.min remaining_steps synchronization_n_step in
  let time_to_simulate := PrimFloat.mul dt (float_of_int n) in
  let w := set_nest_synchronization_time time_to_simulate
             (set_cosimulator (set_synchronization_time time_to_simulate)
                (set_cosimulator (set_synchronization_n_step n) (after s))) in
  let r := synchronize (tvb_to_trans_cosim_updates s) (nest_to_trans_cosim_updates s) w in
  let ran := n_tvb_steps_ran_since_last_synch (cosimulator (tvb_app (snd r))) in
  (remaining_steps - ran,
   {| simulated_steps := simulated_steps s + ran;
      tvb_to_trans_cosim_updates := fst (fst r);
      nest_to_trans_cosim_updates := snd (fst r);
      after := log (Progress (simulated_steps s + ran) simulation_length) (snd r) |}).

Lemma loop_done fuel dt sl n remaining (s : loop_state) :
  remaining <= 0 -> iterate fuel dt sl n remaining s = Some s.
Proof.
  intros H. destruct fuel; cbn [loop];
    destruct (0 <? remaining) eqn:E; try reflexivity; apply Z.ltb_lt in E; lia.
Qed.

Lemma loop_out_of_fuel dt sl n remaining (s : loop_state) :
  0 < remaining -> iterate 0 dt sl n remaining s = None.
Proof. intros H. cbn [loop]. apply Z.ltb_lt in H. rewrite H. reflexivity. Qed.

Lemma loop_step fuel dt sl n remaining (s : loop_state) :
  0 < remaining ->
  iterate (S fuel) dt sl n remaining s =
  iterate fuel dt sl n (fst (iteration dt sl n remaining s))
    (snd (iteration dt sl n remaining s)).
Proof.
  intros H. cbn [loop]. apply Z.ltb_lt in H. rewrite H.
  unfold iteration. cbv zeta.
  change (synchronization_n_step
            (cosimulator
               (tvb_app
                  (set_cosimulator (set_synchronization_n_step (Z.min remaining n))
                     (after s)))))
    with (Z.min remaining n).
  destruct (synchronize _ _ _) as [[u v] w]. reflexivity.
Qed.

(** What one pass does: both simulators are given the same time to simulate,
    [dt * min(remaining_steps, synchronization_n_step)]; the steps TVB reports
    are added to the steps simulated and taken from the steps left; the calls
    are those of one synchronization followed by the progress message. *)
Lemma iteration_spec dt sl n remaining (s : loop_state) :
  exists to_nest to_tvb tvb_before nest_before,
    synchronization_n_step (cosimulator tvb_before) = Z.min remaining n /\
    synchronization_time (cosimulator tvb_before)
      = PrimFloat.mul dt (float_of_int (Z.min remaining n)) /\
    nest_synchronization_time nest_before
      = PrimFloat.mul dt (float_of_int (Z.min remaining n)) /\
    (tvb_to_trans_cosim_updates s = None -> to_nest = None) /\
    (nest_to_trans_cosim_updates s = None -> to_tvb = None) /\
    fst (iteration dt sl n remaining s)
      = remaining - n_tvb_steps_ran_since_last_synch
                      (cosimulator (snd (tvb_run to_tvb tvb_before))) /\
    simulated_steps (snd (iteration dt sl n remaining s))
      = simulated_steps s + n_tvb_steps_ran_since_last_synch
                              (cosimulator (snd (tvb_run to_tvb tvb_before))) /\
    tvb_to_trans_cosim_updates (snd (iteration dt sl n remaining s))
      = fst (tvb_run to_tvb tvb_before) /\
    nest_to_trans_cosim_updates (snd (iteration dt sl n remaining s))
      = fst (nest_run to_nest nest_before) /\
    calls (after (snd (iteration dt sl n remaining s)))
      = calls (after s)
        ++ transformer_calls TVB_TO_NEST (tvb_to_trans_cosim_updates s) to_nest
        ++ transformer_calls NEST_TO_TVB (nest_to_trans_cosim_updates s) to_tvb
        ++ [Called TVB to_tvb (fst (tvb_run to_tvb tvb_before));
            Called NEST to_nest (fst (nest_run to_nest nest_before));
            Progress (simulated_steps s
                      + n_tvb_steps_ran_since_last_synch
                          (cosimulator (snd (tvb_run to_tvb tvb_before)))) sl].
Proof.
  unfold iteration. cbv zeta. rewrite synchronize_eq. cbv zeta.
  cbn [fst snd tvb_app nest_app tvb_to_nest_app nest_to_tvb_app calls after simulated_steps
       tvb_to_trans_cosim_updates nest_to_trans_cosim_updates log
       set_nest_synchronization_time set_cosimulator].
  eexists _, _, _, _.
  split; [|split; [|split; [|split; [|split; [|split; [|split; [|split; [|split]]]]]]]];
    [| | | | |reflexivity|reflexivity|reflexivity|reflexivity|].
  - reflexivity.
  - reflexivity.
  - reflexivity.
  - intros ->. reflexivity.
  - intros ->. reflexivity.
  - rewrite <- !app_assoc. reflexivity.
Qed.

(** ** The whole co-simulation *)

(** How [run_cosimulation] is put together. *)
Lemma cosimulate_returned fuel adv (w : world) u1 u2 w' :
  cosimulate fuel adv w = Returned u1 u2 w' ->
  exists total s0 s,
    enter now adv w = Some (total, s0) /\
    iterate fuel (dt (integrator (cosimulator (tvb_app w))))
      (if adv then PrimFloat.add (simulation_length (cosimulator (tvb_app w)))
                     (synchronization_time (cosimulator (tvb_app w)))
       else simulation_length (cosimulator (tvb_app w)))
      (synchronization_n_step (cosimulator (tvb_app w))) total s0 = Some s /\
    too_large (simulated_steps s) = false /\
    u1 = tvb_to_trans_cosim_updates s /\ u2 = nest_to_trans_cosim_updates s /\
    w' = leave (dt (integrator (cosimulator (tvb_app w))))
           (synchronization_time (cosimulator (tvb_app w)))
           (synchronization_n_step (cosimulator (tvb_app w))) s.
Proof.
  unfold run_cosimulation. cbv zeta.
  destruct (enter now adv w) as [[total s0]|]; [|discriminate].
  destruct (loop _ _ _ _ _ _ _ _ _ _) as [s|] eqn:E; [|discriminate].
  destruct (too_large (simulated_steps s)) eqn:Hs; [discriminate|].
  intros [= <- <- <-]. exists total, s0, s. repeat split; assumption.
Qed.


(** ** What holds of every run of the loop *)

(** An invariant of the body holds when the loop is left, with no step left. *)
Lemma loop_invariant (I : Z -> loop_state -> Prop) dt sl n :
  (forall remaining s, 0 < remaining -> I remaining s ->
     I (fst (iteration dt sl n remaining s)) (snd (iteration dt sl n remaining s))) ->
  forall fuel remaining s s',
    I remaining s -> iterate fuel dt sl n remaining s = Some s' ->
    exists remaining', remaining' <= 0 /\ I remaining' s'.
Proof.
  intros Hstep fuel. induction fuel as [|fuel IH]; intros remaining s s' HI Hl.
  - destruct (Z_lt_le_dec 0 remaining) as [Hpos|Hle].
    + rewrite loop_out_of_fuel in Hl by exact Hpos. discriminate.
    + rewrite loop_done in Hl by exact Hle. injection Hl as <-. eauto.
  - destruct (Z_lt_le_dec 0 remaining) as [Hpos|Hle].
    + rewrite loop_step in Hl by exact Hpos. eapply IH; [|exact Hl]. auto.
    + rewrite loop_done in Hl by exact Hle. injection Hl as <-. eauto.
Qed.

(** The steps simulated and the steps left always add up to the same number. *)
Lemma loop_conserves fuel dt sl n remaining (s s' : loop_state) :
  iterate fuel dt sl n remaining s = Some s' ->
  simulated_steps s + Z.max 0 remaining <= simulated_steps s'.
Proof.
  intros Hl. destruct (Z_lt_le_dec 0 remaining) as [Hpos|Hle].
  - pose (I := fun (r : Z) (x : loop_state) =>
                 simulated_steps x + r = simulated_steps s + remaining).
    assert (Hstep : forall r x, 0 < r -> I r x ->
              I (fst (iteration dt sl n r x)) (snd (iteration dt sl n r x))).
    { unfold I. intros r x _ HI.
      destruct (iteration_spec dt sl n r x)
        as (? & ? & ? & ? & _ & _ & _ & _ & _ & -> & -> & _).
      lia. }
    destruct (loop_invariant I dt sl n Hstep fuel remaining s s' eq_refl Hl)
      as (r & Hr & HI).
    unfold I in HI. lia.
  - rewrite loop_done in Hl by exact Hle. injection Hl as <-. lia.
Qed.

Lemma reports_app (a b : list (call update)) : reports (a ++ b) = reports a ++ reports b.
Proof. apply omap_app. Qed.

Lemma calls_of_transformer a b (input output : option update) :
  (length (calls_of a (transformer_calls b input output)) <= 1)%nat /\
  (input = None -> calls_of a (transformer_calls b input output) = []) /\
  (a <> b -> calls_of a (transformer_calls b input output) = []) /\
  reports (transformer_calls b input output) = [].
Proof.
  destruct input as [u|]; unfold transformer_calls, calls_of, reports; simpl.
  - destruct (decide (a = b)) as [->|Hne]; simpl.
    + split; [lia|]. split; [discriminate|]. split; [congruence|reflexivity].
    + split; [lia|]. split; [discriminate|]. split; reflexivity.
  - split; [lia|]. repeat split.
Qed.

(** The calls the loop has added when it is left: TVB, NEST and the progress
    message once per pass, a transformer at most once per pass, and the
    NEST -> TVB transformer not in the first pass. *)
Definition balanced (first_pass : bool) (added : list (call update)) : Prop :=
  length (calls_of TVB added) = length (reports added) /\
  length (calls_of NEST added) = length (reports added) /\
  (length (calls_of TVB_TO_NEST added) <= length (reports added))%nat /\
  (if first_pass
   then (added = [] \/ length (calls_of NEST_TO_TVB added) < length (reports added))%nat
   else (length (calls_of NEST_TO_TVB added) <= length (reports added))%nat).

Lemma loop_calls fuel dt sl n remaining (s s' : loop_state) :
  iterate fuel dt sl n remaining s = Some s' ->
  exists added,
    calls (after s') = calls (after s) ++ added /\
    balanced false added /\
    (nest_to_trans_cosim_updates s = None -> balanced true added).
Proof.
  intros Hl.
  pose (I := fun (_ : Z) (x : loop_state) =>
               exists added,
                 calls (after x) = calls (after s) ++ added /\
                 balanced false added /\
                 (nest_to_trans_cosim_updates s = None ->
                  balanced true added /\
                  (added = [] -> nest_to_trans_cosim_updates x = None))).
  assert (Hstep : forall r x, 0 < r -> I r x ->
            I (fst (iteration dt sl n r x)) (snd (iteration dt sl n r x)));
    [|assert (H0 : I remaining s);
      [|destruct (loop_invariant I dt sl n Hstep fuel remaining s s' H0 Hl)
          as (_ & _ & added & Hc & Hb & Hf)]]; unfold I in *.
  - intros r x _ (added & Hc & (B1 & B2 & B3 & B4) & Hf).
    destruct (iteration_spec dt sl n r x)
      as (to_nest & to_tvb & tb & nb & _ & _ & _ & _ & Hnone & _ & _ & _ & _ & ->).
    rewrite Hc.
    pose proof (calls_of_transformer TVB TVB_TO_NEST (tvb_to_trans_cosim_updates x) to_nest)
      as (_ & _ & T1 & R1).
    pose proof (calls_of_transformer NEST TVB_TO_NEST (tvb_to_trans_cosim_updates x) to_nest)
      as (_ & _ & T2 & _).
    pose proof (calls_of_transformer TVB_TO_NEST TVB_TO_NEST
                  (tvb_to_trans_cosim_updates x) to_nest) as (T3 & _ & _ & _).
    pose proof (calls_of_transformer NEST_TO_TVB TVB_TO_NEST
                  (tvb_to_trans_cosim_updates x) to_nest) as (_ & _ & T4 & _).
    pose proof (calls_of_transformer TVB NEST_TO_TVB (nest_to_trans_cosim_updates x) to_tvb)
      as (_ & _ & U1 & R2).
    pose proof (calls_of_transformer NEST NEST_TO_TVB (nest_to_trans_cosim_updates x) to_tvb)
      as (_ & _ & U2 & _).
    pose proof (calls_of_transformer TVB_TO_NEST NEST_TO_TVB
                  (nest_to_trans_cosim_updates x) to_tvb) as (_ & _ & U3 & _).
    pose proof (calls_of_transformer NEST_TO_TVB NEST_TO_TVB
                  (nest_to_trans_cosim_updates x) to_tvb) as (U4 & U5 & _ & _).
    specialize (T1 ltac:(discriminate)). specialize (T2 ltac:(discriminate)).
    specialize (T4 ltac:(discriminate)). specialize (U1 ltac:(discriminate)).
    specialize (U2 ltac:(discriminate)). specialize (U3 ltac:(discriminate)).
    eexists. split; [rewrite <- app_assoc; reflexivity|].
    unfold balanced, calls_of, reports in *.
    rewrite !omap_app, !length_app.
    fold (calls_of TVB) (calls_of NEST) (calls_of TVB_TO_NEST) (calls_of NEST_TO_TVB) reports
      in *.
    rewrite T1, T2, T4, U1, U2, U3, R1, R2.
    simpl.
    change (reports []) with (@nil (Z * float)). 
    change (calls_of TVB []) with (@nil (option update * option update)).
    cbn [length].
    split; [|intros Hs; specialize (Hf Hs) as ((_ & _ & _ & F4) & Hx)].
    + repeat split; cbn; try lia.
    + split; [|intros Habs; apply app_eq_nil in Habs as [_ Habs];
                apply app_eq_nil in Habs as [_ Habs];
                apply app_eq_nil in Habs as [_ Habs]; discriminate].
      repeat split; cbn; try lia.
      right. destruct F4 as [->|F4].
      * rewrite (U5 (Hx eq_refl)). cbn. lia.
      * cbn in *. lia.
  - exists []. rewrite app_nil_r. split; [reflexivity|].
    split; [repeat split; cbn; lia|].
    intros Hs. split; [repeat split; cbn; try lia; left; reflexivity|]. intros _. exact Hs.
  - exists added. split; [exact Hc|]. split; [exact Hb|]. intros Hs. apply Hf, Hs.
Qed.

(** After a pass, the last progress message tells the steps simulated. *)
Lemma loop_last_report fuel dt sl n remaining (s s' : loop_state) :
  iterate fuel dt sl n remaining s = Some s' ->
  s' = s \/ last (reports (calls (after s'))) = Some (simulated_steps s', sl).
Proof.
  intros Hl.
  pose (I := fun (_ : Z) (x : loop_state) =>
               x = s \/ last (reports (calls (after x))) = Some (simulated_steps x, sl)).
  assert (Hstep : forall r x, 0 < r -> I r x ->
            I (fst (iteration dt sl n r x)) (snd (iteration dt sl n r x))).
  { unfold I. intros r x _ _. right.
    destruct (iteration_spec dt sl n r x)
      as (to_nest & to_tvb & tb & nb & _ & _ & _ & _ & _ & _ & -> & _ & _ & ->).
    pose proof (calls_of_transformer TVB TVB_TO_NEST (tvb_to_trans_cosim_updates x) to_nest)
      as (_ & _ & _ & R1).
    pose proof (calls_of_transformer TVB NEST_TO_TVB (nest_to_trans_cosim_updates x) to_tvb)
      as (_ & _ & _ & R2).
    rewrite !reports_app, R1, R2. simpl. rewrite last_snoc. reflexivity. }
  destruct (loop_invariant I dt sl n Hstep fuel remaining s s' (or_introl eq_refl) Hl)
    as (r & _ & HI).
  exact HI.
Qed.

Lemma enter_eq adv (w : world) total s0 :
  enter now adv w = Some (total, s0) ->
  int_round
    (PrimFloat.div
       (if adv then PrimFloat.add (simulation_length (cosimulator (tvb_app w)))
                      (synchronization_time (cosimulator (tvb_app w)))
        else simulation_length (cosimulator (tvb_app w)))
       (dt (integrator (cosimulator (tvb_app w))))) = Some total /\
  s0 = {| simulated_steps := 0;
          tvb_to_trans_cosim_updates := tvb_init_cosim_coupling (tvb_app w);
          nest_to_trans_cosim_updates := None;
          after := set_cosimulator (set_tic now) w |}.
Proof.
  unfold enter. cbv zeta. destruct (int_round _) as [r|]; [|discriminate].
  intros [= <- <-]. split; reflexivity.
Qed.

Lemma calls_leave d t n (s : loop_state) : calls (leave d t n s) = calls (after s).
Proof. reflexivity. Qed.

(** X10.  [run_cosimulation] does not return before the steps asked for have
    been simulated: the [simulation_length] it leaves is [steps * dt] for a
    number of steps that is at least [int(round(simulation_length / dt))]
    (with the synchronization time added to the length if asked), whatever
    the apps do.  The steps are those of the last progress message, an
    integer of any size that Python can convert to a float. *)
Theorem returns_after_requested_steps fuel adv (w : world) u1 u2 w' :
  cosimulate fuel adv w = Returned u1 u2 w' ->
  exists total s0 steps,
    enter now adv w = Some (total, s0) /\
    Z.max 0 total <= steps /\
    too_large steps = false /\
    simulation_length (cosimulator (tvb_app w'))
      = PrimFloat.mul (float_of_int steps) (dt (integrator (cosimulator (tvb_app w)))) /\
    ((steps = 0 /\ calls w' = calls w) \/
     exists sl, last (reports (calls w')) = Some (steps, sl)).
Proof.
  intros H. apply cosimulate_returned in H as (total & s0 & s & He & Hl & Hs & _ & _ & ->).
  exists total, s0, (simulated_steps s). split; [exact He|].
  pose proof (loop_conserves _ _ _ _ _ _ _ Hl) as Hc.
  pose proof (loop_last_report _ _ _ _ _ _ _ Hl) as Hr.
  apply enter_eq in He as [_ ->]. cbn [simulated_steps] in Hc.
  split; [lia|]. split; [exact Hs|]. split; [reflexivity|].
  rewrite calls_leave. destruct Hr as [->|Hr].
  - left. split; reflexivity.
  - right. eexists. exact Hr.
Qed.

(** X11.  Each pass of the loop calls TVB once, NEST once and prints one
    progress message; a transformer is called at most once per pass, and the
    NEST -> TVB transformer strictly less often than the simulators, since
    there is no NEST update before the first pass. *)
Theorem simulators_called_equally fuel adv (w : world) u1 u2 w' :
  cosimulate fuel adv w = Returned u1 u2 w' ->
  exists added,
    calls w' = calls w ++ added /\
    length (calls_of TVB added) = length (reports added) /\
    length (calls_of NEST added) = length (reports added) /\
    (length (calls_of TVB_TO_NEST added) <= length (reports added))%nat /\
    (added = [] \/ length (calls_of NEST_TO_TVB added) < length (reports added))%nat.
Proof.
  intros H. apply cosimulate_returned in H as (total & s0 & s & He & Hl & _ & _ & _ & ->).
  apply enter_eq in He as [_ ->].
  apply loop_calls in Hl as (added & Hc & _ & Hf).
  exists added. rewrite calls_leave. split; [exact Hc|]. exact (Hf eq_refl).
Qed.


(** With an obedient TVB app the loop makes [ceil(remaining / n)] passes and
    simulates exactly the steps left. *)
Lemma loop_obedient dt sl n :
  obedient -> 0 < n ->
  forall fuel remaining (s : loop_state),
    (Z.to_nat ((Z.max 0 remaining + n - 1) / n) <= fuel)%nat ->
    exists s',
      iterate fuel dt sl n remaining s = Some s' /\
      simulated_steps s' = simulated_steps s + Z.max 0 remaining /\
      length (reports (calls (after s')))
        = (length (reports (calls (after s)))
           + Z.to_nat ((Z.max 0 remaining + n - 1) / n))%nat.
Proof.
  intros Hob Hn fuel. induction fuel as [|fuel IH]; intros remaining s Hfuel.
  - destruct (Z_lt_le_dec 0 remaining) as [Hpos|Hle].
    + exfalso.
      assert (1 <= (Z.max 0 remaining + n - 1) / n) by (apply Z.div_le_lower_bound; lia).
      lia.
    + exists s. rewrite loop_done by exact Hle.
      replace (Z.max 0 remaining) with 0 by lia.
      rewrite Z.div_small by lia. split; [reflexivity|]. split; [lia|]. cbn. lia.
  - destruct (Z_lt_le_dec 0 remaining) as [Hpos|Hle].
    + rewrite loop_step by exact Hpos.
      destruct (iteration_spec dt sl n remaining s)
        as (to_nest & to_tvb & tb & nb & H1 & _ & _ & _ & _ & H4 & H5 & _ & _ & H8).
      rewrite Hob, H1 in H4, H5, H8.
      assert (Hdiv : (Z.max 0 remaining + n - 1) / n
                     = 1 + (Z.max 0 (remaining - Z.min remaining n) + n - 1) / n).
      { replace (Z.max 0 remaining) with remaining by lia.
        destruct (Z_le_gt_dec remaining n) as [Hsmall|Hbig].
        - replace (Z.min remaining n) with remaining by lia.
          replace (Z.max 0 (remaining - remaining)) with 0 by lia.
          rewrite (Z.div_small (0 + n - 1) n) by lia.
          symmetry. apply Z.div_unique with (r := remaining - 1); lia.
        - replace (Z.min remaining n) with n by lia.
          replace (Z.max 0 (remaining - n)) with (remaining - n) by lia.
          replace (remaining + n - 1) with (remaining - n + n - 1 + 1 * n) by lia.
          rewrite Z.div_add by lia. lia. }
      assert (0 <= (Z.max 0 (remaining - Z.min remaining n) + n - 1) / n)
        by (apply Z.div_pos; lia).
      destruct (IH (fst (iteration dt sl n remaining s)) (snd (iteration dt sl n remaining s)))
        as (s' & Hl & Hs & Hr).
      { rewrite H4. lia. }
      exists s'. split; [exact Hl|].
      rewrite Hs, Hr, H4, H5, H8. split; [lia|].
      pose proof (calls_of_transformer TVB TVB_TO_NEST (tvb_to_trans_cosim_updates s) to_nest)
        as (_ & _ & _ & R1).
      pose proof (calls_of_transformer TVB NEST_TO_TVB (nest_to_trans_cosim_updates s) to_tvb)
        as (_ & _ & _ & R2).
      rewrite !reports_app, R1, R2, !length_app. simpl length. lia.
    + exists s. rewrite loop_done by exact Hle.
      replace (Z.max 0 remaining) with 0 by lia.
      rewrite Z.div_small by lia. split; [reflexivity|]. split; [lia|]. cbn. lia.
Qed.

(** X14.  With a TVB app that runs the steps it is asked for, a positive
    [synchronization_n_step] and step counts in the range of the integers of
    64 bits, [run_cosimulation] returns after
    [ceil(total / synchronization_n_step)] passes, having simulated exactly
    the [total] steps asked for: the last pass is cut to the steps left. *)
Theorem obedient_tvb_simulates_exactly fuel adv (w : world) total s0 :
  obedient ->
  enter now adv w = Some (total, s0) ->
  total < 2 ^ 63 ->
  0 < synchronization_n_step (cosimulator (tvb_app w)) < 2 ^ 63 ->
  (Z.to_nat ((Z.max 0 total + synchronization_n_step (cosimulator (tvb_app w)) - 1)
             / synchronization_n_step (cosimulator (tvb_app w))) <= fuel)%nat ->
  exists u1 u2 w',
    cosimulate fuel adv w = Returned u1 u2 w' /\
    simulation_length (cosimulator (tvb_app w'))
      = PrimFloat.mul (float_of_int (Z.max 0 total))
          (dt (integrator (cosimulator (tvb_app w)))) /\
    length (reports (calls w'))
      = (length (reports (calls w))
         + Z.to_nat ((Z.max 0 total + synchronization_n_step (cosimulator (tvb_app w)) - 1)
                     / synchronization_n_step (cosimulator (tvb_app w))))%nat.
Proof.
  intros Hob He Htotal [Hn Hn64] Hfuel.
  unfold run_cosimulation. cbv zeta. rewrite He.
  destruct (loop_obedient (dt (integrator (cosimulator (tvb_app w))))
              (if adv then PrimFloat.add (simulation_length (cosimulator (tvb_app w)))
                             (synchronization_time (cosimulator (tvb_app w)))
               else simulation_length (cosimulator (tvb_app w)))
              (synchronization_n_step (cosimulator (tvb_app w))) Hob Hn fuel total s0 Hfuel)
    as (s' & Hl & Hs & Hr).
  rewrite Hl.
  apply enter_eq in He as [_ ->]. cbn [simulated_steps after] in Hs, Hr.
  rewrite (too_large_int64 (simulated_steps s')) by (rewrite Hs; lia).
  eexists _, _, _. split; [reflexivity|].
  rewrite calls_leave, Hr. split; [|reflexivity].
  unfold leave. cbv zeta. rewrite Hs. reflexivity.
Qed.


(** X16.  When there is no step to simulate, [run_cosimulation] returns at
    once: no app is called, the updates returned are the initial coupling of
    TVB and [None], and [simulation_length] is overwritten with [0 * dt]. *)
Theorem nothing_to_simulate fuel adv (w : world) total s0 :
  enter now adv w = Some (total, s0) -> total <= 0 ->
  exists w',
    cosimulate fuel adv w = Returned (tvb_init_cosim_coupling (tvb_app w)) None w' /\
    calls w' = calls w /\
    tvb_private (tvb_app w') = tvb_private (tvb_app w) /\
    nest_private (nest_app w') = nest_private (nest_app w) /\
    tvb_to_nest_app w' = tvb_to_nest_app w /\
    nest_to_tvb_app w' = nest_to_tvb_app w /\
    simulation_length (cosimulator (tvb_app w'))
      = PrimFloat.mul (float_of_int 0) (dt (integrator (cosimulator (tvb_app w)))) /\
    _tic (cosimulator (tvb_app w')) = now.
Proof.
  intros He Hle. unfold run_cosimulation. cbv zeta. rewrite He.
  rewrite loop_done by exact Hle. apply enter_eq in He as [_ ->].
  cbn [simulated_steps]. rewrite (too_large_int64 0) by (vm_compute; reflexivity).
  eexists. split; [reflexivity|]. repeat split.
Qed.

Lemma int_round_div_zero (x d : float) :
  PrimFloat.eqb d 0 = true -> int_round (PrimFloat.div x d) = None.
Proof.
  intros Hd. unfold int_round. rewrite div_spec.
  rewrite eqb_spec in Hd. change (Prim2SF 0) with (S754_zero false) in Hd.
  destruct (Prim2SF d) as [sd|sd| |sd md ed].
  - destruct (Prim2SF x); reflexivity.
  - destruct sd; discriminate Hd.
  - discriminate Hd.
  - destruct sd; discriminate Hd.
Qed.

(** X17.  A [dt] of zero makes [run_cosimulation] raise at line 76, before
    any app is called and before any attribute is written, whatever the
    simulation length. *)
Theorem zero_dt_raises fuel adv (w : world) :
  PrimFloat.eqb (dt (integrator (cosimulator (tvb_app w)))) 0 = true ->
  cosimulate fuel adv w = Raised.
Proof.
  intros Hd. unfold run_cosimulation, enter. cbv zeta.
  rewrite int_round_div_zero by exact Hd. reflexivity.
Qed.

End Apps.

(** ** A run of the loop *)

(** A TVB app that simulates the steps it is asked for and reports them. *)
Definition obedient_tvb (input : option unit) (a : TVBApp unit unit)
    : option unit * TVBApp unit unit :=
  (Some tt,
   {| cosimulator :=
        {| simulation_length := simulation_length (cosimulator a);
           synchronization_time := synchronization_time (cosimulator a);
           synchronization_n_step := synchronization_n_step (cosimulator a);
           integrator := integrator (cosimulator a);
           n_tvb_steps_ran_since_last_synch := synchronization_n_step (cosimulator a);
           _tic := _tic (cosimulator a) |};
      tvb_init_cosim_coupling := tvb_init_cosim_coupling a;
      tvb_private := tvb_private a |}).

Definition quiet_nest (input : option unit) (a : NESTApp unit)
    : option unit * NESTApp unit := (Some tt, a).

Definition relay (input : option unit) (a : unit) : option unit * unit := (input, a).

(** One second of simulation in steps of 0.125, synchronized every three steps;
    the NEST app was configured with another synchronization time. *)
Definition world_0 : world unit unit unit unit unit :=
  {| tvb_app :=
       {| cosimulator :=
            {| simulation_length := 1; synchronization_time := 0.375;
               synchronization_n_step := 3; integrator := {| dt := 0.125 |};
               n_tvb_steps_ran_since_last_synch := 0; _tic := 0 |};
          tvb_init_cosim_coupling := Some tt; tvb_private := tt |};
     nest_app := {| nest_synchronization_time := 0.5; nest_private := tt |};
     tvb_to_nest_app := tt; nest_to_tvb_app := tt; calls := [] |}.

Definition world_0_returned : world unit unit unit unit unit :=
  Eval vm_compute in
    match run_cosimulation obedient_tvb quiet_nest relay relay 0 5 true world_0 with
    | Returned _ _ w => w
    | _ => world_0
    end.




(** The same configuration with a [synchronization_n_step] of 0, with
    nothing to simulate, and with a [dt] of 0. *)
Definition with_cosimulator (c : CoSimulator) : world unit unit unit unit unit :=
  {| tvb_app := {| cosimulator := c; tvb_init_cosim_coupling := Some tt; tvb_private := tt |};
     nest_app := {| nest_synchronization_time := 0.5; nest_private := tt |};
     tvb_to_nest_app := tt; nest_to_tvb_app := tt; calls := [] |}.


Definition world_no_length : world unit unit unit unit unit :=
  with_cosimulator
    {| simulation_length := 0; synchronization_time := 0.375;
       synchronization_n_step := 3; integrator := {| dt := 0.125 |};
       n_tvb_steps_ran_since_last_synch := 0; _tic := 0 |}.

Definition world_no_dt : world unit unit unit unit unit :=
  with_cosimulator
    {| simulation_length := 1; synchronization_time := 0.375;
       synchronization_n_step := 3; integrator := {| dt := 0 |};
       n_tvb_steps_ran_since_last_synch := 0; _tic := 0 |}.

Lemma returns_after_requested_steps_witness :
  exists total s0 steps,
    enter 0 true world_0 = Some (total, s0) /\
    Z.max 0 total <= steps /\
    too_large steps = false /\
    simulation_length (cosimulator (tvb_app world_0_returned))
      = PrimFloat.mul (float_of_int steps) (dt (integrator (cosimulator (tvb_app world_0)))) /\
    ((steps = 0 /\ calls world_0_returned = calls world_0) \/
     exists sl, last (reports (calls world_0_returned)) = Some (steps, sl)).
Proof.
  exact (returns_after_requested_steps obedient_tvb quiet_nest relay relay 0 5 true world_0
           (Some tt) (Some tt) world_0_returned eq_refl).
Defined.

Lemma simulators_called_equally_witness :
  exists added,
    calls world_0_returned = calls world_0 ++ added /\
    length (calls_of TVB added) = length (reports added) /\
    length (calls_of NEST added) = length (reports added) /\
    (length (calls_of TVB_TO_NEST added) <= length (reports added))%nat /\
    (added = [] \/ length (calls_of NEST_TO_TVB added) < length (reports added))%nat.
Proof.
  exact (simulators_called_equally obedient_tvb quiet_nest relay relay 0 5 true world_0
           (Some tt) (Some tt) world_0_returned eq_refl).
Defined.


Lemma obedient_tvb_simulates_exactly_witness :
  exists u1 u2 w',
    run_cosimulation obedient_tvb quiet_nest relay relay 0 5 true world_0
      = Returned u1 u2 w' /\
    simulation_length (cosimulator (tvb_app w'))
      = PrimFloat.mul (float_of_int (Z.max 0 11)) 0.125 /\
    length (reports (calls w'))
      = (length (reports (calls world_0)) + Z.to_nat ((Z.max 0 11 + 3 - 1) / 3))%nat.
Proof.
  eapply (obedient_tvb_simulates_exactly obedient_tvb quiet_nest relay relay 0 5 true world_0
           11 _).
  - intros input a. reflexivity.
  - reflexivity.
  - reflexivity.
  - split; reflexivity.
  - vm_compute. lia.
Defined.


Lemma nothing_to_simulate_witness :
  exists w',
    run_cosimulation obedient_tvb quiet_nest relay relay 0 0 false world_no_length
      = Returned (tvb_init_cosim_coupling (tvb_app world_no_length)) None w' /\
    calls w' = calls world_no_length /\
    tvb_private (tvb_app w') = tvb_private (tvb_app world_no_length) /\
    nest_private (nest_app w') = nest_private (nest_app world_no_length) /\
    tvb_to_nest_app w' = tvb_to_nest_app world_no_length /\
    nest_to_tvb_app w' = nest_to_tvb_app world_no_length /\
    simulation_length (cosimulator (tvb_app w'))
      = PrimFloat.mul (float_of_int 0)
          (dt (integrator (cosimulator (tvb_app world_no_length)))) /\
    _tic (cosimulator (tvb_app w')) = 0%float.
Proof.
  eapply (nothing_to_simulate obedient_tvb quiet_nest relay relay 0 0 false world_no_length
           0 _).
  - reflexivity.
  - vm_compute. discriminate.
Defined.

Lemma zero_dt_raises_witness :
  run_cosimulation obedient_tvb quiet_nest relay relay 0 5 true world_no_dt = Raised.
Proof.
  apply (zero_dt_raises obedient_tvb quiet_nest relay relay 0 5 true world_no_dt).
  reflexivity.
Defined.

End BackendProofs.
